(** * GINIndicator -- the Data Playground page (app/src/pages/01_Playground.py)

    A shallow embedding of the Streamlit page that sweeps one socioeconomic
    feature and plots the GINI predictions returned by the backend.

    Python values are a tagged union, dictionaries of JSON origin are
    association lists in insertion order, [st.session_state] is a finite map
    from keys to values.  Exceptions, [st.rerun()] and [st.stop()] are
    outcomes of a small state monad whose state holds the session, the log
    of HTTP requests that were sent and the messages that were shown.

    Conventions of the model:
    - a Python [float] is idealised as a rational number: rounding, overflow
      and the non-finite values play no role in the page's own logic;
    - the backend is an oracle from requests to replies; a reply is either a
      transport failure ([requests] raises a [RequestException]) or a status
      code with the decoded JSON body. *)

From Stdlib Require Import ZArith QArith String Ascii List Lia.
From stdpp Require Import gmap strings.
Import ListNotations.

Set Warnings "-register-all".
Local Open Scope string_scope.
Local Open Scope Z_scope.

(** ** Python values *)

Inductive value : Type :=
| VNone
| VBool (b : bool)
| VInt (z : Z)
| VFloat (q : Q)
| VStr (s : string)
| VList (l : list value)
| VDict (d : list (string * value)).

Inductive exn : Type :=
| TypeError
| ValueError
| KeyError (k : string)
| IndexError
| AttributeError
| RequestException (msg : string).

(** A computation that either returns or raises. *)
Inductive result (A : Type) : Type :=
| Ok (a : A)
| Raise (e : exn).
Arguments Ok {A} a.
Arguments Raise {A} e.

#[global] Instance result_ret : MRet result := fun _ a => Ok a.
#[global] Instance result_bind : MBind result := fun _ _ k r =>
  match r with
  | Ok a => k a
  | Raise e => Raise e
  end.

(** *** Dictionaries in insertion order *)

Module Dict.
Section WithValue.
Context {V : Type}.

Fixpoint get (k : string) (d : list (string * V)) : option V :=
  match d with
  | [] => None
  | (k', v) :: d' => if String.eqb k k' then Some v else get k d'
  end.

(** [d[k] = v]: overwrite in place, or append a new key. *)
Fixpoint set (k : string) (v : V) (d : list (string * V)) : list (string * V) :=
  match d with
  | [] => [(k, v)]
  | (k', v') :: d' =>
      if String.eqb k k' then (k', v) :: d' else (k', v') :: set k v d'
  end.

Definition mem (k : string) (d : list (string * V)) : bool :=
  match get k d with Some _ => true | None => false end.

(** [d.get(k, default)] *)
Definition get_default (k : string) (default : V) (d : list (string * V)) : V :=
  match get k d with Some v => v | None => default end.

(** A dictionary display [{k1: v1, ..., **rest}]: later keys win. *)
Definition of_items (items : list (string * V)) : list (string * V) :=
  fold_left (fun d kv => set (fst kv) (snd kv) d) items [].

Definition keys (d : list (string * V)) : list string := map fst d.
End WithValue.
End Dict.

(** *** Builtins *)

(** Truth value testing. *)
Definition truthy (v : value) : bool :=
  match v with
  | VNone => false
  | VBool b => b
  | VInt z => negb (z =? 0)
  | VFloat q => negb (Qeq_bool q 0)
  | VStr s => negb (String.eqb s EmptyString)
  | VList l => match l with [] => false | _ => true end
  | VDict d => match d with [] => false | _ => true end
  end.

Definition is_space (c : ascii) : bool :=
  match c with
  | " "%char | "009"%char | "010"%char | "011"%char | "012"%char | "013"%char => true
  | _ => false
  end.

Definition digit_of (c : ascii) : option Z :=
  let n := Z.of_nat (nat_of_ascii c) in
  if (48 <=? n) && (n <=? 57) then Some (n - 48) else None.

Fixpoint lstrip (s : string) : string :=
  match s with
  | String c s' => if is_space c then lstrip s' else s
  | EmptyString => EmptyString
  end.

Fixpoint rstrip (s : string) : string :=
  match s with
  | EmptyString => EmptyString
  | String c s' =>
      match rstrip s' with
      | EmptyString => if is_space c then EmptyString else String c EmptyString
      | r => String c r
      end
  end.

(** Digits of a decimal literal; a single underscore may separate two digits.
    [after_digit] records whether the previous character was a digit. *)
Fixpoint digits_value (acc : Z) (after_digit : bool) (s : string) : option Z :=
  match s with
  | EmptyString => if after_digit then Some acc else None
  | String c s' =>
      match digit_of c with
      | Some d => digits_value (10 * acc + d) true s'
      | None =>
          if Ascii.eqb c "_"%char && after_digit
          then match s' with
               | EmptyString => None
               | _ => digits_value acc false s'
               end
          else None
      end
  end.

(** [int(s)] for a string in base 10: surrounding white space, an optional
    sign, decimal digits.  ASCII input; [None] stands for [ValueError]. *)
Definition int_of_str (s : string) : option Z :=
  match rstrip (lstrip s) with
  | String "-"%char s' => option_map Z.opp (digits_value 0 false s')
  | String "+"%char s' => digits_value 0 false s'
  | s' => digits_value 0 false s'
  end.

(** [int(x)] of a float truncates towards zero. *)
Definition trunc (q : Q) : Z := Z.quot (Qnum q) (Zpos (Qden q)).

Definition py_int (v : value) : result Z :=
  match v with
  | VInt z => Ok z
  | VBool b => Ok (if b then 1 else 0)
  | VFloat q => Ok (trunc q)
  | VStr s => match int_of_str s with Some z => Ok z | None => Raise ValueError end
  | VNone | VList _ | VDict _ => Raise TypeError
  end.

(** [x == 1] *)
Definition eq_one (v : value) : bool :=
  match v with
  | VInt z => z =? 1
  | VBool b => b
  | VFloat q => Qeq_bool q 1
  | _ => false
  end.

(** [x[k]] for a string key. *)
Definition subscript (v : value) (k : string) : result value :=
  match v with
  | VDict d => match Dict.get k d with Some x => Ok x | None => Raise (KeyError k) end
  | _ => Raise TypeError
  end.

(** [x.get(k, default)] *)
Definition dot_get (v : value) (k : string) (default : value) : result value :=
  match v with
  | VDict d => Ok (Dict.get_default k default d)
  | _ => Raise AttributeError
  end.

Definition is_substring (k s : string) : bool :=
  match String.index 0 k s with Some _ => true | None => false end.

(** [k in x] for a string [k]. *)
Definition contains (k : string) (v : value) : result bool :=
  match v with
  | VDict d => Ok (Dict.mem k d)
  | VList l =>
      Ok (existsb (fun x => match x with VStr s => String.eqb s k | _ => false end) l)
  | VStr s => Ok (is_substring k s)
  | VNone | VBool _ | VInt _ | VFloat _ => Raise TypeError
  end.

(** ** Region indicators *)

Definition EAST_ASIA := "East Asia and Pacific".
Definition EUROPE := "Europe and Central Asia".
Definition LATIN_AMERICA := "Latin America and Caribbean".
Definition MIDDLE_EAST := "Middle East and North Africa".

(** The options of the region select box, in display order. *)
Definition region_options : list string :=
  [EAST_ASIA; EUROPE; LATIN_AMERICA; MIDDLE_EAST].

(** Keys of the local dictionary of [map_regions]: the four names are
    strings, the argument may be any hashable value. *)
Inductive hkey : Type :=
| KNone
| KBool (b : bool)
| KInt (z : Z)
| KFloat (q : Q)
| KStr (s : string).

Definition hashable (v : value) : result hkey :=
  match v with
  | VNone => Ok KNone
  | VBool b => Ok (KBool b)
  | VInt z => Ok (KInt z)
  | VFloat q => Ok (KFloat q)
  | VStr s => Ok (KStr s)
  | VList _ | VDict _ => Raise TypeError
  end.

Definition hkey_number (k : hkey) : option Q :=
  match k with
  | KBool b => Some (if b then 1 else 0)%Q
  | KInt z => Some (inject_Z z)
  | KFloat q => Some q
  | KNone | KStr _ => None
  end.

(** Equality of dictionary keys: strings with strings, numbers by value
    ([True == 1 == 1.0]), [None] with itself. *)
Definition hkey_eqb (a b : hkey) : bool :=
  match a, b with
  | KStr s, KStr t => String.eqb s t
  | KNone, KNone => true
  | _, _ =>
      match hkey_number a, hkey_number b with
      | Some x, Some y => Qeq_bool x y
      | _, _ => false
      end
  end.

(** [d[k] = v] *)
Fixpoint setitem (k : hkey) (v : Z) (d : list (hkey * Z)) : list (hkey * Z) :=
  match d with
  | [] => [(k, v)]
  | (k', v') :: d' =>
      if hkey_eqb k' k then (k', v) :: d' else (k', v') :: setitem k v d'
  end.

(** [d[name]] *)
Fixpoint getitem (name : string) (d : list (hkey * Z)) : result Z :=
  match d with
  | [] => Raise (KeyError name)
  | (k', v) :: d' => if hkey_eqb k' (KStr name) then Ok v else getitem name d'
  end.

Definition map_regions (region : value) : result (Z * Z * Z * Z) :=
  let regions := [(KStr EAST_ASIA, 0); (KStr EUROPE, 0);
                  (KStr LATIN_AMERICA, 0); (KStr MIDDLE_EAST, 0)] in
  k ← hashable region;
  let regions := setitem k 1 regions in
  east_asia ← getitem EAST_ASIA regions;
  europe ← getitem EUROPE regions;
  latin_america ← getitem LATIN_AMERICA regions;
  middle_east ← getitem MIDDLE_EAST regions;
  Ok (east_asia, europe, latin_america, middle_east).

(** Falls off the end, returning [None], when no field equals 1. *)
Definition get_region_from_features (features : value) : result (option Z) :=
  a ← subscript features "Region_East_Asia_and_Pacific";
  if eq_one a then Ok (Some 0) else
  b ← subscript features "Region_Europe_and_Central_Asia";
  if eq_one b then Ok (Some 1) else
  c ← subscript features "Region_Latin_America_and_Caribbean";
  if eq_one c then Ok (Some 2) else
  d ← subscript features "Region_Middle_East_and_North_Africa";
  if eq_one d then Ok (Some 3) else
  Ok None.


(** ** The page monad: session state, HTTP log, messages *)

Inductive method : Type := GET | POST.

(** The endpoints below [API_BASE_URL]; path parameters are kept as values. *)
Inductive endpoint : Type :=
| PlaygroundFeatures                 (* /playground/features *)
| PlaygroundSave                     (* /playground/save *)
| PlaygroundSaved (user_id : value)  (* /playground/saved/{user_id} *)
| PlaygroundGraph (graph_id : value) (* /playground/graph/{graph_id} *)
| PlaygroundPresets                  (* /playground/presets *)
| ModelsPredict                      (* /models/playground/predict *)
| ModelsStds.                        (* /models/playground/stds *)

(** One call of [requests.get] or [requests.post]; [rq_timeout] is the
    [timeout=] keyword in seconds, [None] when the call passes none. *)
Record request : Type := Request {
  rq_method : method;
  rq_endpoint : endpoint;
  rq_json : option value;
  rq_timeout : option Z
}.

Inductive reply : Type :=
| NoReply (msg : string)
| Reply (status : Z) (body : value).

Inductive level : Type := LError | LSuccess | LWarning | LInfo | LWrite.

(** A message on the page: the text of the f-string and the values
    interpolated into it. *)
Record message : Type := Message {
  msg_level : level;
  msg_text : string;
  msg_args : list value
}.

Record world : Type := World {
  session : gmap string value;
  sent : list request;
  shown : list message;
  cache_clears : nat
}.

(** How a piece of the script ends: it returns, an exception escapes, or
    Streamlit ends the run ([st.rerun()], [st.stop()]). *)
Inductive outcome (A : Type) : Type :=
| Returned (a : A)
| Raised (e : exn)
| Rerun
| Stopped.
Arguments Returned {A} a.
Arguments Raised {A} e.
Arguments Rerun {A}.
Arguments Stopped {A}.

Definition page (A : Type) : Type := world -> outcome A * world.

#[global] Instance page_ret : MRet page := fun _ a w => (Returned a, w).
#[global] Instance page_bind : MBind page := fun _ _ k m w =>
  match m w with
  | (Returned a, w') => k a w'
  | (Raised e, w') => (Raised e, w')
  | (Rerun, w') => (Rerun, w')
  | (Stopped, w') => (Stopped, w')
  end.

Definition lift {A} (r : result A) : page A := fun w =>
  match r with
  | Ok a => (Returned a, w)
  | Raise e => (Raised e, w)
  end.

Definition raise {A} (e : exn) : page A := fun w => (Raised e, w).

(** [try: body  except requests.exceptions.RequestException as e: handler] *)
Definition try_except {A} (body : page A) (handler : string -> page A) : page A :=
  fun w =>
    match body w with
    | (Raised (RequestException msg), w') => handler msg w'
    | r => r
    end.

Definition st_show (l : level) (text : string) (args : list value) : page unit :=
  fun w => (Returned tt,
            World (session w) (sent w) (shown w ++ [Message l text args]) (cache_clears w)).

Definition st_error := st_show LError.
Definition st_success := st_show LSuccess.
Definition st_warning := st_show LWarning.
Definition st_write := st_show LWrite.

Definition st_rerun {A} : page A := fun w => (Rerun, w).

Definition st_cache_data_clear : page unit :=
  fun w => (Returned tt, World (session w) (sent w) (shown w) (S (cache_clears w))).

(** [st.session_state.get(k)] *)
Definition session_get (k : string) : page value :=
  fun w => (Returned (default VNone (session w !! k)), w).

(** [st.session_state.k], an [AttributeError] when the key was never set. *)
Definition session_attr (k : string) : page value :=
  fun w => match session w !! k with
           | Some v => (Returned v, w)
           | None => (Raised AttributeError, w)
           end.

Definition session_set (k : string) (v : value) : page unit :=
  fun w => (Returned tt, World (<[k := v]> (session w)) (sent w) (shown w) (cache_clears w)).

(** [if k in st.session_state: del st.session_state[k]] *)
Definition session_discard (k : string) : page unit :=
  fun w => (Returned tt, World (delete k (session w)) (sent w) (shown w) (cache_clears w)).

Definition is_not_none (v : value) : bool :=
  match v with VNone => false | _ => true end.

Definition API_BASE_URL := "http://web-api:4000".

(** Feature variable mapping, display name to backend name. *)
Definition FEATURE_MAPPING : list (string * string) :=
  [("Population", "Population");
   ("GDP per capita", "GDP_per_capita");
   ("Trade union density", "Trade_union_density");
   ("Unemployment rate", "Unemployment_rate");
   ("Health", "Health");
   ("Education", "Education");
   ("Housing", "Housing");
   ("Community development", "Community_development");
   ("Productivity", "Productivity");
   ("Inflation", "Inflation");
   ("IRLT", "IRLT")].

(** [{v: k for k, v in FEATURE_MAPPING.items()}] *)
Definition backend_to_display : list (string * string) :=
  Dict.of_items (map (fun kv => (snd kv, fst kv)) FEATURE_MAPPING).

(** [l[:-4]] *)
Definition drop_last_four {A} (l : list A) : list A :=
  firstn (length l - 4) l.

Section Playground.
(** [float(s)] on a string is a parameter of the model: [None] stands for
    [ValueError]. *)
Variable float_of_str : string -> option Q.

(** The backend behind [API_BASE_URL]. *)
Variable backend : request -> reply.

Definition py_float (v : value) : result Q :=
  match v with
  | VFloat q => Ok q
  | VInt z => Ok (inject_Z z)
  | VBool b => Ok (if b then 1 else 0)%Q
  | VStr s => match float_of_str s with Some q => Ok q | None => Raise ValueError end
  | VNone | VList _ | VDict _ => Raise TypeError
  end.

(** *** API functions *)

(** [requests.get] / [requests.post]: the request is sent, then either a
    response comes back or a [RequestException] is raised. *)
Definition requests_send (rq : request) : page (Z * value) := fun w =>
  let w' := World (session w) (sent w ++ [rq]) (shown w) (cache_clears w) in
  match backend rq with
  | NoReply msg => (Raised (RequestException msg), w')
  | Reply status body => (Returned (status, body), w')
  end.

Definition requests_get (e : endpoint) (timeout : option Z) : page (Z * value) :=
  requests_send (Request GET e None timeout).

Definition requests_post (e : endpoint) (json : value) (timeout : option Z)
  : page (Z * value) :=
  requests_send (Request POST e (Some json) timeout).

(** Fetch available feature variables from backend.  The body is the
    function under [st.cache_data]: what runs on a cache miss. *)
Definition fetch_available_features : page value :=
  try_except
    ('(status_code, body) ← requests_get PlaygroundFeatures (Some 10);
     if status_code =? 200 then lift (dot_get body "features" (VList []))
     else st_error "Failed to fetch features: {}" [VInt status_code];; mret VNone)
    (fun e => st_error "Error connecting to backend: {}" [VStr e];; mret VNone).

(** Save graph configuration to backend. *)
Definition save_graph_to_backend (user_id : value) (graph_name : string)
    (x_axis : string) (x_min x_max : Q) (x_steps : Z)
    (feature_values : list (string * value)) : page (bool * value) :=
  try_except
    (let data := Dict.of_items
                   ([("user_id", user_id);
                     ("name", VStr graph_name);
                     ("x_axis", VStr x_axis);
                     ("x_min", VFloat x_min);
                     ("x_max", VFloat x_max);
                     ("x_steps", VInt x_steps)] ++ feature_values) in
     '(status_code, body) ← requests_post PlaygroundSave (VDict data) (Some 10);
     mret (status_code =? 201, body))
    (fun e => mret (false, VDict [("error", VStr e)])).

(** Fetch saved graphs for a user (the function under [st.cache_data]). *)
Definition fetch_saved_graphs (user_id : value) : page value :=
  try_except
    ('(status_code, body) ← requests_get (PlaygroundSaved user_id) (Some 10);
     if status_code =? 200 then lift (dot_get body "saved_graphs" (VList []))
     else mret (VList []))
    (fun _ => mret (VList [])).

(** Load a specific graph configuration. *)
Definition load_graph_from_backend (graph_id : value) : page value :=
  try_except
    ('(status_code, body) ← requests_get (PlaygroundGraph graph_id) (Some 10);
     if status_code =? 200 then mret body else mret VNone)
    (fun _ => mret VNone).

(** Load presets for playground dropdown. *)
Definition fetch_preset_options : page value :=
  try_except
    ('(status_code, body) ← requests_get PlaygroundPresets (Some 10);
     if status_code =? 200 then mret body else mret VNone)
    (fun _ => mret VNone).

(** Generate real GINI predictions using the model in the backend API. *)
Definition generate_real_predictions (feature_values : list (string * value))
    (x_axis : string) (x_min x_max : Q) (steps : Z) : page (value * value) :=
  try_except
    (let data := Dict.of_items
                   ([("XAxis", VStr x_axis);
                     ("XMin", VFloat x_min);
                     ("XMax", VFloat x_max);
                     ("XStep", VInt steps)] ++ feature_values) in
     '(status_code, result) ← requests_post ModelsPredict (VDict data) (Some 10);
     if status_code =? 200 then
       x_values ← lift (dot_get result "x_values" (VList []));
       y_values ← lift (dot_get result "predictions" (VList []));
       mret (x_values, y_values)
     else
       st_error "Failed to generate predictions: {}" [VInt status_code];;
       mret (VNone, VNone))
    (fun e => st_error "Error connecting to backend: {}" [VStr e];;
              mret (VNone, VNone)).

(** *** Top of the script *)

(** [if 'graph_data' not in st.session_state: ...] and the same for
    [available_features]. *)
Definition init_session : page unit := fun w =>
  let s := session w in
  let s := match s !! "graph_data" with Some _ => s | None => <["graph_data" := VNone]> s end in
  let s := match s !! "available_features" with
           | Some _ => s
           | None => <["available_features" := VNone]> s
           end in
  (Returned tt, World s (sent w) (shown w) (cache_clears w)).

(** The graph named by [loaded_graph_id] is fetched on every run; the call
    passes no timeout and stands outside any [try]. *)
Definition load_graph_by_id : page unit :=
  graph_id ← session_get "loaded_graph_id";
  (if truthy graph_id then
     '(_, graph_data) ← requests_get (PlaygroundGraph graph_id) None;
     session_set "loaded_graph" graph_data
   else mret tt);;
  st_write "{}" [graph_id].

(** [backend_to_display.get(backend_feature, backend_feature)] *)
Definition display_name (backend_feature : value) : result value :=
  match backend_feature with
  | VStr name => Ok (VStr (Dict.get_default name name backend_to_display))
  | VList _ | VDict _ => Raise TypeError
  | other => Ok other
  end.

(** The items a [for] loop draws from a value. *)
Definition iterate (v : value) : result (list value) :=
  match v with
  | VList l => Ok l
  | VDict d => Ok (map VStr (Dict.keys d))
  | VStr s => Ok (map (fun c => VStr (String c EmptyString)) (list_ascii_of_string s))
  | VNone | VBool _ | VInt _ | VFloat _ => Raise TypeError
  end.

Fixpoint for_each (f : value -> result value) (l : list value) : result (list value) :=
  match l with
  | [] => Ok []
  | x :: l' => y ← f x; ys ← for_each f l'; Ok (y :: ys)
  end.

(** Display names of the features, from the backend or the fallback. *)
Definition load_available_features : page unit :=
  available ← session_attr "available_features";
  if is_not_none available then mret tt else
  backend_features ← fetch_available_features;
  if truthy backend_features then
    items ← lift (iterate backend_features);
    display_features ← lift (for_each display_name items);
    session_set "available_features" (VList display_features)
  else
    session_set "available_features" (VList (map VStr (Dict.keys FEATURE_MAPPING)));;
    st_warning "Backend unavailable - using default features" [].

(** *** Presets *)

Definition REGION_FIELDS : list string :=
  ["Region_East_Asia_and_Pacific"; "Region_Europe_and_Central_Asia";
   "Region_Latin_America_and_Caribbean"; "Region_Middle_East_and_North_Africa"].

(** The ten scalar features that are floats, with their hardcoded
    defaults; [Population] is the eleventh and an integer. *)
Definition FLOAT_DEFAULTS : list (string * Q) :=
  [("GDP_per_capita", 41000.0); ("Trade_union_density", 33.0);
   ("Unemployment_rate", 8.0); ("Health", 0.064); ("Education", 0.052);
   ("Housing", 0.0032); ("Community_development", 0.0019);
   ("Corporate_tax_rate", 21.0); ("Inflation", 2.1); ("IRLT", 7.9)]%Q.

Definition POPULATION_DEFAULT : Z := 22000000.

(** [float(matching_entry.get(key, default))] *)
Definition float_field (matching_entry : value) (key : string) (default : Q)
  : result value :=
  v ← dot_get matching_entry key (VFloat default);
  q ← py_float v;
  Ok (VFloat q).

Fixpoint float_fields (matching_entry : value) (fields : list (string * Q))
  : result (list (string * value)) :=
  match fields with
  | [] => Ok []
  | (key, default) :: rest =>
      v ← float_field matching_entry key default;
      vs ← float_fields matching_entry rest;
      Ok ((key, v) :: vs)
  end.

(** The dictionary [preset_values] built from the selected preset entry. *)
Definition preset_values (matching_entry : value) : result value :=
  region_name ← dot_get matching_entry "Region" (VStr EUROPE);
  '(east_asia, europe, latin_america, middle_east) ← map_regions region_name;
  p ← dot_get matching_entry "Population" (VInt POPULATION_DEFAULT);
  population ← py_int p;
  floats ← float_fields matching_entry FLOAT_DEFAULTS;
  Ok (VDict (Dict.of_items
               ([("Population", VInt population)] ++ floats ++
                [("Region_East_Asia_and_Pacific", VInt east_asia);
                 ("Region_Europe_and_Central_Asia", VInt europe);
                 ("Region_Latin_America_and_Caribbean", VInt latin_america);
                 ("Region_Middle_East_and_North_Africa", VInt middle_east)]))).

(** The body under the "Apply Preset" button; [data_index] is
    [country_options.index(selected_index)] and [label] the selected
    option. *)
Definition apply_preset_button (preset_data : list value) (data_index : nat)
    (label : string) : page unit :=
  session_discard "loaded_graph_id";;
  session_discard "loaded_graph";;
  match preset_data with
  | [] => st_error "No preset data available" []
  | _ =>
      match preset_data !! data_index with
      | None => raise IndexError
      | Some matching_entry =>
          values ← lift (preset_values matching_entry);
          session_set "selected_preset" values;;
          st_success "Applied preset: {}" [VStr label];;
          st_rerun
      end
  end.

(** *** Defaults of the controls *)

(** Get default value with priority: loaded graph > preset > fallback.
    [loaded_graph] and [selected_preset_data] are the two session entries
    read just before, [None] when absent. *)
Definition get_default_value (loaded_graph selected_preset_data : value)
    (feature_key : string) (fallback_default : value) (as_int : bool)
  : result value :=
  has_features ← (if truthy loaded_graph then contains "features" loaded_graph
                  else Ok false);
  val ← (if has_features : bool then
           features ← subscript loaded_graph "features";
           dot_get features feature_key fallback_default
         else if truthy selected_preset_data then
           dot_get selected_preset_data feature_key fallback_default
         else Ok fallback_default);
  if as_int then z ← py_int val; Ok (VInt z)
  else q ← py_float val; Ok (VFloat q).

Definition get_default_region (loaded_graph selected_preset_data : value)
  : result (option Z) :=
  has_features ← (if truthy loaded_graph then contains "features" loaded_graph
                  else Ok false);
  if has_features : bool then
    features ← subscript loaded_graph "features";
    get_region_from_features features
  else if truthy selected_preset_data then
    get_region_from_features selected_preset_data
  else Ok (Some 0).
(** *** Sweep controls *)

(** What the input widgets return on this run.  The type leaves the numbers
    free; the bounds that a widget puts on its number are stated where a
    property needs them (see [steps_from_widget]). *)
Record controls : Type := Controls {
  population : Z;
  gdp_per_capita : Q;
  trade_union : Q;
  unemployment : Q;
  health : Q;
  education : Q;
  housing : Q;
  community : Q;
  corporate_tax : Q;
  inflation : Q;
  irlt : Q;
  east_asia : Z;
  europe : Z;
  latin_america : Z;
  middle_east : Z;
  compare_feature : string;
  x_min : Q;
  x_max : Q;
  steps : Z;
  graph_name : string
}.

Definition feature_values (c : controls) : list (string * value) :=
  Dict.of_items
    [("Population", VInt (population c));
     ("GDP_per_capita", VFloat (gdp_per_capita c));
     ("Trade_union_density", VFloat (trade_union c));
     ("Unemployment_rate", VFloat (unemployment c));
     ("Health", VFloat (health c));
     ("Education", VFloat (education c));
     ("Housing", VFloat (housing c));
     ("Community_development", VFloat (community c));
     ("Corporate_tax_rate", VFloat (corporate_tax c));
     ("Inflation", VFloat (inflation c));
     ("IRLT", VFloat (irlt c));
     ("Region_East_Asia_and_Pacific", VInt (east_asia c));
     ("Region_Europe_and_Central_Asia", VInt (europe c));
     ("Region_Latin_America_and_Caribbean", VInt (latin_america c));
     ("Region_Middle_East_and_North_Africa", VInt (middle_east c))].

(** [x[:-4]] *)
Definition slice_drop_last_four (v : value) : result value :=
  match v with
  | VList l => Ok (VList (drop_last_four l))
  | VStr s => Ok (VStr (String.substring 0 (String.length s - 4) s))
  | _ => Raise TypeError
  end.

(** The options of the "Feature" select box. *)
Definition compare_options : page value :=
  available ← session_attr "available_features";
  let available_features :=
    if truthy available then available
    else VList (map VStr (Dict.keys FEATURE_MAPPING)) in
  lift (slice_drop_last_four available_features).

(** [x[0]] *)
Definition first_item (v : value) : result value :=
  match v with
  | VList (x :: _) => Ok x
  | VList [] => Raise IndexError
  | VStr (String c _) => Ok (VStr (String c EmptyString))
  | VStr EmptyString => Raise IndexError
  | VDict _ => Raise (KeyError "0")
  | VNone | VBool _ | VInt _ | VFloat _ => Raise TypeError
  end.

(** The value and the standard deviation of the compared feature; the
    request for the deviations passes no timeout and stands outside any
    [try]. *)
Definition current_compared (c : controls) : page (value * value) :=
  match Dict.get (compare_feature c) FEATURE_MAPPING with
  | None => raise (KeyError (compare_feature c))
  | Some name =>
      current_compared_value ← lift (subscript (VDict (feature_values c)) name);
      '(_, body) ← requests_get ModelsStds None;
      stds ← lift (first_item body);
      current_std ← lift (subscript stds name);
      mret (current_compared_value, current_std)
  end.

(** The body under the "Generate Graph" button. *)
Definition generate_graph_button (c : controls) : page unit :=
  if Qle_bool (x_max c) (x_min c) then
    st_error "Min value must be less than Max value!" []
  else if steps c <? 5 then
    st_error "Steps must be at least 5!" []
  else
    let backend_feature_name :=
      Dict.get_default (compare_feature c) (compare_feature c) FEATURE_MAPPING in
    '(x_values, y_values) ←
      generate_real_predictions (feature_values c) backend_feature_name
        (x_min c) (x_max c) (steps c);
    if is_not_none x_values && is_not_none y_values then
      session_set "graph_data"
        (VDict [("x_values", x_values); ("y_values", y_values);
                ("feature_name", VStr (compare_feature c))]);;
      st_success "Graph generated successfully!" [];;
      st_rerun
    else
      st_error "Failed to generate predictions. Please try again." [].

(** The save controls: drawn only while a graph is shown; [pressed] tells
    whether the "Save Graph" button was the one clicked. *)
Definition save_graph_button (user_id : value) (c : controls) (pressed : bool)
  : page unit :=
  graph_data ← session_attr "graph_data";
  if is_not_none graph_data then
    if pressed && negb (String.eqb (graph_name c) EmptyString) then
      let backend_feature_name :=
        Dict.get_default (compare_feature c) (compare_feature c) FEATURE_MAPPING in
      '(success, response) ←
        save_graph_to_backend user_id (graph_name c) backend_feature_name
          (x_min c) (x_max c) (steps c) (feature_values c);
      if success : bool then
        st_success "Graph '{}' saved successfully!" [VStr (graph_name c)];;
        st_cache_data_clear;;
        st_rerun
      else
        err ← lift (dot_get response "error" (VStr "Unknown error"));
        st_error "Failed to save graph: {}" [err]
    else mret tt
  else mret tt.

(** The body under the "Clear Graph" button. *)
Definition clear_graph_button : page unit :=
  session_set "graph_data" VNone;;
  session_discard "loaded_graph";;
  st_rerun.

(** *** Guards, sidebar and chart *)

(** [st.session_state.get(k, default)] *)
Definition session_get_or (k : string) (default : value) : page value :=
  fun w => (Returned (stdpp.option.default default (session w !! k)), w).

Definition st_info := st_show LInfo.

Definition st_stop {A} : page A := fun w => (Stopped, w).

(** [st.switch_page(target)] ends the run of this script; the run of the
    target page is not followed. *)
Definition st_switch_page {A} (target : string) : page A := fun w => (Stopped, w).

(** Check authentication; [home_pressed] tells whether the button to the
    home page was the one clicked. *)
Definition require_authenticated (home_pressed : bool) : page unit :=
  authenticated ← session_get_or "authenticated" (VBool false);
  if truthy authenticated then mret tt else
  st_error "Please log in first!!" [];;
  st_info "Use sidebar to navigate to home page and log in." [];;
  (if home_pressed then st_switch_page "Home.py" else mret tt);;
  st_stop.

(** Get user ID from session state (set during login). *)
Definition require_user_id (home_pressed : bool) : page value :=
  user_id ← session_get "UserID";
  if truthy user_id then mret user_id else
  st_error
    "User ID not found in session state. Please log in again from the home page." [];;
  (if home_pressed then st_switch_page "Home.py" else mret tt);;
  st_stop.

(** The script from the initialisation of the session to the list of
    features. *)
Definition page_top (home_pressed : bool) : page value :=
  init_session;;
  require_authenticated home_pressed;;
  load_graph_by_id;;
  user_id ← require_user_id home_pressed;
  load_available_features;;
  mret user_id.

(** [for key in list(st.session_state.keys()): del st.session_state[key]] *)
Definition session_delete_all : page unit := fun w =>
  (Returned tt,
   World (foldr (fun key s => delete key s) (session w) (map fst (map_to_list (session w))))
     (sent w) (shown w) (cache_clears w)).

(** The body under the "Logout" button. *)
Definition logout_button : page unit :=
  session_delete_all;;
  st_success "Logged out successfully!" [];;
  st_switch_page "Home.py".

(** The body under the "Load Graph" button; [graph_index] is
    [graph_names.index(selected_graph)]. *)
Definition load_graph_button (saved_graphs : list value) (graph_index : nat)
  : page unit :=
  match saved_graphs !! graph_index with
  | None => raise IndexError
  | Some selected_graph_data =>
      session_set "loaded_graph" selected_graph_data;;
      session_discard "selected_preset";;
      name ← lift (subscript selected_graph_data "name");
      st_success "Loaded graph: {}" [name];;
      st_rerun
  end.

(** What the main content area draws. *)
Inductive drawing : Type :=
| Chart (x y : value) (feature_name : value)
| Placeholder.

(** A data array handed to [go.Scatter]: a list is taken as it is and
    [None] leaves the property unset; a number, a string or a dictionary is
    refused with a [ValueError]. *)
Definition data_array (v : value) : result value :=
  match v with
  | VList _ | VNone => Ok v
  | VBool _ | VInt _ | VFloat _ | VStr _ | VDict _ => Raise ValueError
  end.

Definition main_content : page drawing :=
  graph_data ← session_attr "graph_data";
  if is_not_none graph_data then
    x_values ← lift (subscript graph_data "x_values");
    y_values ← lift (subscript graph_data "y_values");
    x ← lift (data_array x_values);
    y ← lift (data_array y_values);
    feature_name ← lift (subscript graph_data "feature_name");
    mret (Chart x y feature_name)
  else mret Placeholder.

(** *** Defaults of the sweep *)

(** [l.index(name)] on a list of values. *)
Fixpoint list_index (name : string) (l : list value) : option nat :=
  match l with
  | [] => None
  | VStr s :: l' => if String.eqb s name then Some 0%nat else option_map S (list_index name l')
  | _ :: l' => option_map S (list_index name l')
  end.

(** The index preselected in the "Feature" select box. *)
Definition default_compare_index (loaded_graph available_features : value)
  : result nat :=
  default_compare_feature ←
    (if truthy loaded_graph then
       backend_feature ← dot_get loaded_graph "x_axis" VNone;
       k ← hashable backend_feature;
       Ok (match k with
           | KStr name => Dict.get name backend_to_display
           | _ => None
           end)
     else Ok None);
  match default_compare_feature with
  | None => Ok 0%nat
  | Some name =>
      if String.eqb name EmptyString then Ok 0%nat else
      match available_features with
      | VList l => Ok (stdpp.option.default 0%nat (list_index name l))
      | VStr s => Ok (stdpp.option.default 0%nat (String.index 0 name s))
      | _ => Raise TypeError
      end
  end.

(** [3 * x] *)
Definition times_three (v : value) : result value :=
  match v with
  | VInt z => Ok (VInt (3 * z))
  | VBool b => Ok (VInt (if b then 3 else 0))
  | VFloat q => Ok (VFloat (3 * q))
  | VStr s => Ok (VStr (s +:+ s +:+ s))
  | VList l => Ok (VList (l ++ l ++ l))
  | VNone | VDict _ => Raise TypeError
  end.

(** An operand of integer arithmetic: an [int] or a [bool]. *)
Definition int_operand (v : value) : option Z :=
  match v with
  | VInt z => Some z
  | VBool b => Some (if b then 1 else 0)
  | _ => None
  end.

(** An operand of float arithmetic: a number of any kind. *)
Definition float_operand (v : value) : option Q :=
  match v with
  | VInt z => Some (inject_Z z)
  | VBool b => Some (if b then 1 else 0)%Q
  | VFloat q => Some q
  | _ => None
  end.

(** [a + b] *)
Definition py_add (a b : value) : result value :=
  match a, b with
  | VStr s, VStr t => Ok (VStr (s +:+ t))
  | VList l, VList m => Ok (VList (l ++ m))
  | _, _ =>
      match int_operand a, int_operand b with
      | Some x, Some y => Ok (VInt (x + y))
      | _, _ =>
          match float_operand a, float_operand b with
          | Some x, Some y => Ok (VFloat (x + y))
          | _, _ => Raise TypeError
          end
      end
  end.

(** The values handed to the inputs "Min:", "Max:" and "Steps:" as their
    [value=]; the default of [.get] for the maximum is computed whether or
    not the loaded graph has one. *)
Definition sweep_defaults (loaded_graph current_compared_value current_std : value)
  : result (Q * Q * Z) :=
  default_x_min ← (if truthy loaded_graph then dot_get loaded_graph "x_min" (VInt 0)
                   else Ok (VInt 0));
  spread ← times_three current_std;
  three_sigma ← py_add current_compared_value spread;
  default_x_max ← (if truthy loaded_graph then dot_get loaded_graph "x_max" three_sigma
                   else Ok three_sigma);
  default_steps ← (if truthy loaded_graph then dot_get loaded_graph "x_steps" (VInt 20)
                   else Ok (VInt 20));
  x_min ← py_float default_x_min;
  x_max ← py_float default_x_max;
  steps ← py_int default_steps;
  Ok (x_min, x_max, steps).
End Playground.

(** * Vocabulary of the properties *)

(** Exactly one indicator is 1 and the other three are 0. *)
Definition one_hot (t : Z * Z * Z * Z) : Prop :=
  t = (1, 0, 0, 0) \/ t = (0, 1, 0, 0) \/ t = (0, 0, 1, 0) \/ t = (0, 0, 0, 1).

Definition indicator_sum (t : Z * Z * Z * Z) : Z :=
  let '(a, b, c, d) := t in a + b + c + d.

(** The four region fields of a feature snapshot. *)
Definition snapshot_regions (snapshot : value) : result (value * value * value * value) :=
  a ← subscript snapshot "Region_East_Asia_and_Pacific";
  b ← subscript snapshot "Region_Europe_and_Central_Asia";
  c ← subscript snapshot "Region_Latin_America_and_Caribbean";
  d ← subscript snapshot "Region_Middle_East_and_North_Africa";
  Ok (a, b, c, d).

Definition ints (t : Z * Z * Z * Z) : value * value * value * value :=
  let '(a, b, c, d) := t in (VInt a, VInt b, VInt c, VInt d).

(** What [float_fields] returns: the same keys in the same order, each with
    the float made from the entry's value or from the default. *)
Definition float_made (f : string -> option Q) (entry : value)
    (field : string * Q) (item : string * value) : Prop :=
  fst item = fst field /\
  exists q, snd item = VFloat q /\
            (v ← dot_get entry (fst field) (VFloat (snd field)); py_float f v) = Ok q.

Definition region_items (t : Z * Z * Z * Z) : list (string * value) :=
  let '(a, b, c, d) := t in
  [("Region_East_Asia_and_Pacific", VInt a);
   ("Region_Europe_and_Central_Asia", VInt b);
   ("Region_Latin_America_and_Caribbean", VInt c);
   ("Region_Middle_East_and_North_Africa", VInt d)].

(** The invariant as the specification words it, for preset application:
    every snapshot made from a preset entry has exactly one indicator set. *)
Definition region_one_hot_claim : Prop :=
  forall f entry pv,
    preset_values f entry = Ok pv ->
    exists t, snapshot_regions pv = Ok (ints t) /\ one_hot t.

(** The lookup as the specification words it: a region name outside the
    four known strings gives the vector of "Europe and Central Asia". *)
Definition unknown_region_is_europe_claim : Prop :=
  forall f entry pv (region : string),
    preset_values f entry = Ok pv ->
    dot_get entry "Region" (VStr EUROPE) = Ok (VStr region) ->
    ~ In region region_options ->
    snapshot_regions pv = Ok (ints (0, 1, 0, 0)).

(** The conversion at the end of [get_default_value]. *)
Definition coerce (f : string -> option Q) (as_int : bool) (v : value) : result value :=
  if as_int then z ← py_int v; Ok (VInt z)
  else q ← py_float f v; Ok (VFloat q).

(** A loaded graph is passed over when it is absent or empty, or when it
    has no "features" entry. *)
Definition passed_over (loaded_graph : value) : Prop :=
  truthy loaded_graph = false \/ contains "features" loaded_graph = Ok false.

(** The strict priority as the specification words it: with a loaded graph
    in the session the resolved default is the graph's and never the
    preset's, so that it is the same under any two presets. *)
Definition strict_priority_claim : Prop :=
  forall f loaded_graph preset preset' key fallback as_int,
    is_not_none loaded_graph = true ->
    is_not_none preset = true ->
    is_not_none preset' = true ->
    get_default_value f loaded_graph preset key fallback as_int =
    get_default_value f loaded_graph preset' key fallback as_int.

(** The request that [generate_real_predictions] posts for the controls. *)
Definition predict_request (c : controls) : request :=
  Request POST ModelsPredict
    (Some (VDict (Dict.of_items
                    ([("XAxis", VStr (Dict.get_default (compare_feature c)
                                        (compare_feature c) FEATURE_MAPPING));
                      ("XMin", VFloat (x_min c));
                      ("XMax", VFloat (x_max c));
                      ("XStep", VInt (steps c))] ++ feature_values c))))
    (Some 10).

(** The hardcoded defaults in the controls, with a sweep of the population. *)
Definition sweep_controls (x_min x_max : Q) (steps : Z) (graph_name : string)
  : controls :=
  Controls 22000000 41000.0 33.0 8.0 0.064 0.052 0.0032 0.0019 21.0 2.1 7.9
    1 0 0 0 "Population" x_min x_max steps graph_name.

(** A session right after [init_session], for a logged-in user. *)
Definition fresh_world : world :=
  World (<["graph_data" := VNone]> (<["available_features" := VNone]> ∅)) [] [] 0.

(** A backend that answers every request with an empty series. *)
Definition answering_backend (rq : request) : reply :=
  Reply 200 (VDict [("x_values", VList []); ("predictions", VList [])]).

(** A backend that cannot be reached. *)
Definition unreachable_backend (msg : string) (rq : request) : reply := NoReply msg.



Definition features_request : request := Request GET PlaygroundFeatures None (Some 10).

(** A call that hands back every transport failure as a value: no
    [RequestException] leaves it, the session is not written, and the one
    request it sends carries the timeout of 10 seconds. *)
Definition guarded {A} (call : page A) : Prop :=
  forall w,
    (forall msg, fst (call w) <> Raised (RequestException msg)) /\
    session (snd (call w)) = session w /\
    exists rq, sent (snd (call w)) = (sent w ++ [rq])%list /\ rq_timeout rq = Some 10.

Definition graph_request (graph_id : value) : request :=
  Request GET (PlaygroundGraph graph_id) None None.

(** Backend name to display name, and back; a name without an entry stays
    as it is. *)
Definition to_display (name : string) : string :=
  Dict.get_default name name backend_to_display.

Definition to_backend (name : string) : string :=
  Dict.get_default name name FEATURE_MAPPING.

(** The request that [save_graph_to_backend] posts for the controls. *)
Definition save_request (user_id : value) (c : controls) : request :=
  Request POST PlaygroundSave
    (Some (VDict (Dict.of_items
                    ([("user_id", user_id);
                      ("name", VStr (graph_name c));
                      ("x_axis", VStr (Dict.get_default (compare_feature c)
                                         (compare_feature c) FEATURE_MAPPING));
                      ("x_min", VFloat (x_min c));
                      ("x_max", VFloat (x_max c));
                      ("x_steps", VInt (steps c))] ++ feature_values c))))
    (Some 10).

Definition stds_request : request := Request GET ModelsStds None None.

(** The display names whose value can be looked up among the feature
    values: the names of [FEATURE_MAPPING] but "Productivity". *)
Definition comparable_features : list string :=
  filter (fun name => negb (String.eqb name "Productivity")) (Dict.keys FEATURE_MAPPING).

(** The JSON body of a request, [None] when it has none. *)
Definition request_json (rq : request) : value :=
  default VNone (rq_json rq).

(** * Properties *)

Example map_regions_mena :
  map_regions (VStr "Middle East and North Africa") = Ok (0, 0, 0, 1).
Proof. reflexivity. Qed.

Example int_of_str_ex : int_of_str " 5_000_000 " = Some 5000000.
Proof. reflexivity. Qed.

(** ** Region indicators *)

Lemma one_hot_sum t : one_hot t -> indicator_sum t = 1.
Proof. intros [-> | [-> | [-> | ->]]]; reflexivity. Qed.

Lemma known_region_cases (region : string) :
  In region region_options ->
  region = EAST_ASIA \/ region = EUROPE \/ region = LATIN_AMERICA \/ region = MIDDLE_EAST.
Proof. unfold region_options. simpl. intuition. Qed.

Lemma map_regions_known (region : string) :
  In region region_options ->
  exists t, map_regions (VStr region) = Ok t /\ one_hot t.
Proof.
  intros H. apply known_region_cases in H.
  unfold one_hot.
  destruct H as [-> | [-> | [-> | ->]]]; eexists; (split; [reflexivity |]); tauto.
Qed.

Lemma eqb_outside (region name : string) :
  ~ In region region_options -> In name region_options -> String.eqb name region = false.
Proof.
  intros Hout Hin. apply String.eqb_neq. intros ->. contradiction.
Qed.

(** A key equal to none of the four names leaves the four entries at 0. *)
Lemma map_regions_other (region : value) (k : hkey) :
  hashable region = Ok k ->
  (forall name, In name region_options -> hkey_eqb (KStr name) k = false) ->
  map_regions region = Ok (0, 0, 0, 0).
Proof.
  intros Hk Hne. unfold map_regions. rewrite Hk.
  cbn [mbind result_bind setitem].
  rewrite !Hne by (unfold region_options; simpl; tauto).
  reflexivity.
Qed.

Lemma map_regions_unknown_name (region : string) :
  ~ In region region_options -> map_regions (VStr region) = Ok (0, 0, 0, 0).
Proof.
  intros Hout. apply (map_regions_other _ (KStr region)); [reflexivity |].
  intros name Hin. simpl. by apply eqb_outside.
Qed.

Lemma map_regions_not_a_name (region : value) (k : hkey) :
  hashable region = Ok k -> (forall s, k <> KStr s) ->
  map_regions region = Ok (0, 0, 0, 0).
Proof.
  intros Hk Hns. apply (map_regions_other _ k Hk).
  intros name _. destruct k; try reflexivity. by destruct (Hns s).
Qed.

(** ** Preset application *)

Lemma float_fields_inv f entry fields items :
  float_fields f entry fields = Ok items ->
  Forall2 (float_made f entry) fields items.
Proof.
  revert items. induction fields as [|[key default] rest IH]; intros items H.
  - injection H as <-. constructor.
  - cbn [float_fields] in H. unfold float_field in H.
    destruct (dot_get entry key (VFloat default)) as [v|] eqn:Hv; [|discriminate].
    cbn [mbind result_bind] in H.
    destruct (py_float f v) as [q|] eqn:Hq; [|discriminate].
    cbn [mbind result_bind] in H.
    destruct (float_fields f entry rest) as [vs|]; [|discriminate].
    injection H as <-. constructor; [|by apply IH].
    split; [reflexivity|]. exists q. split; [reflexivity|].
    cbn [fst snd]. rewrite Hv. exact Hq.
Qed.

Lemma preset_values_inv f entry pv :
  preset_values f entry = Ok pv ->
  exists region_name t population floats,
    dot_get entry "Region" (VStr EUROPE) = Ok region_name /\
    map_regions region_name = Ok t /\
    (p ← dot_get entry "Population" (VInt POPULATION_DEFAULT); py_int p) = Ok population /\
    Forall2 (float_made f entry) FLOAT_DEFAULTS floats /\
    pv = VDict (Dict.of_items
                  ([("Population", VInt population)] ++ floats ++ region_items t)).
Proof.
  unfold preset_values. intros H.
  destruct (dot_get entry "Region" (VStr EUROPE)) as [region_name|] eqn:Hr; [|discriminate].
  cbn [mbind result_bind] in H.
  destruct (map_regions region_name) as [[[[a b] c] d]|] eqn:Hm; [|discriminate].
  cbn [mbind result_bind] in H.
  destruct (dot_get entry "Population" (VInt POPULATION_DEFAULT)) as [p|] eqn:Hp;
    [|discriminate].
  cbn [mbind result_bind] in H.
  destruct (py_int p) as [population|] eqn:Hi; [|discriminate].
  cbn [mbind result_bind] in H.
  destruct (float_fields f entry FLOAT_DEFAULTS) as [floats|] eqn:Hf; [|discriminate].
  injection H as <-.
  exists region_name, (a, b, c, d), population, floats.
  repeat split; try done. by apply float_fields_inv.
Qed.

(** Opens the list of the ten float items into its ten elements. *)
Ltac open_floats H :=
  unfold FLOAT_DEFAULTS in H;
  repeat match type of H with
         | Forall2 _ (_ :: _) ?l =>
             let item := fresh "item" in
             let rest := fresh "rest" in
             let Hitem := fresh "Hitem" in
             let Hrest := fresh "Hrest" in
             let q := fresh "q" in
             let Hk := fresh "Hk" in
             let Hq := fresh "Hq" in
             let Hv := fresh "Hv" in
             apply Forall2_cons_inv_l in H as (item & rest & Hitem & Hrest & ->);
             destruct item as [? ?];
             destruct Hitem as (Hk & q & Hv & Hq);
             cbn [fst snd] in Hk, Hv, Hq; subst;
             rename Hrest into H
         | Forall2 _ [] ?l => apply Forall2_nil_inv_l in H as ->
         end.

(** Preset application copies the result of [map_regions] on the entry's
    region into the four region fields. *)
Lemma preset_values_regions f entry pv :
  preset_values f entry = Ok pv ->
  exists region_name t,
    dot_get entry "Region" (VStr EUROPE) = Ok region_name /\
    map_regions region_name = Ok t /\
    snapshot_regions pv = Ok (ints t).
Proof.
  intros H. apply preset_values_inv in H
    as (region_name & [[[a b] c] d] & population & floats & Hr & Hm & _ & Hf & ->).
  exists region_name, (a, b, c, d). split; [done|]. split; [done|].
  open_floats Hf. reflexivity.
Qed.

(** ** C3: the region indicators as a one-hot vector *)

(** C3, counterexample.  A preset entry whose region is "North America", a
    name that is not a key of the dictionary in [map_regions], gives a
    snapshot whose four indicators are all 0. *)
Lemma region_one_hot_claim_fails :
  (pv ← preset_values (fun _ => None) (VDict [("Region", VStr "North America")]);
   snapshot_regions pv) = Ok (ints (0, 0, 0, 0)) /\
  ~ region_one_hot_claim.
Proof.
  split; [reflexivity|].
  intros claim.
  destruct (claim (fun _ => None) (VDict [("Region", VStr "North America")]) _ eq_refl)
    as ([[[a b] c] d] & Hsnap & Hone).
  vm_compute in Hsnap. injection Hsnap as <- <- <- <-.
  destruct Hone as [H | [H | [H | H]]]; discriminate H.
Qed.

(** C3, as amended.  For each of the four names that the region select box
    offers, [map_regions] returns exactly one indicator equal to 1 and three
    equal to 0, so the indicators sum to 1; a snapshot made from a preset
    entry has the same property when the entry's region is one of these four
    names, and has all four indicators 0 when it is another name. *)
Theorem region_indicators_one_hot :
  (forall region : string,
      In region region_options ->
      exists t, map_regions (VStr region) = Ok t /\ one_hot t /\ indicator_sum t = 1) /\
  (forall f entry pv (region : string),
      preset_values f entry = Ok pv ->
      dot_get entry "Region" (VStr EUROPE) = Ok (VStr region) ->
      (In region region_options ->
       exists t, snapshot_regions pv = Ok (ints t) /\ one_hot t /\ indicator_sum t = 1) /\
      (~ In region region_options ->
       snapshot_regions pv = Ok (ints (0, 0, 0, 0)))).
Proof.
  split.
  - intros region Hin. destruct (map_regions_known region Hin) as (t & Ht & Hone).
    exists t. auto using one_hot_sum.
  - intros f entry pv region Hpv Hregion.
    destruct (preset_values_regions f entry pv Hpv) as (name & t & Hname & Ht & Hsnap).
    rewrite Hregion in Hname. injection Hname as <-. split.
    + intros Hin. destruct (map_regions_known region Hin) as (t' & Ht' & Hone).
      rewrite Ht in Ht'. injection Ht' as <-.
      exists t. auto using one_hot_sum.
    + intros Hout. rewrite (map_regions_unknown_name region Hout) in Ht.
      injection Ht as <-. exact Hsnap.
Qed.

Lemma region_indicators_one_hot_witness :
  (exists t, map_regions (VStr "Latin America and Caribbean") = Ok t /\
             one_hot t /\ indicator_sum t = 1) /\
  (exists t, snapshot_regions
               (VDict (Dict.of_items
                         ([("Population", VInt 22000000)] ++
                          map (fun kv => (fst kv, VFloat (snd kv))) FLOAT_DEFAULTS ++
                          region_items (1, 0, 0, 0)))) = Ok (ints t) /\
             one_hot t /\ indicator_sum t = 1).
Proof.
  split.
  - apply (proj1 region_indicators_one_hot).
    unfold region_options. simpl. tauto.
  - apply (proj2 region_indicators_one_hot (fun _ => None)
             (VDict [("Region", VStr "East Asia and Pacific")]) _
             "East Asia and Pacific").
    + reflexivity.
    + reflexivity.
    + unfold region_options. simpl. tauto.
Defined.

(** ** C4: the region of a preset *)

(** C4, counterexample.  For the region "Sub-Saharan Africa" the indicator
    of Europe and Central Asia is 0, as are the other three. *)
Lemma unknown_region_is_europe_claim_fails :
  (pv ← preset_values (fun _ => None) (VDict [("Region", VStr "Sub-Saharan Africa")]);
   snapshot_regions pv) = Ok (ints (0, 0, 0, 0)) /\
  ~ unknown_region_is_europe_claim.
Proof.
  split; [reflexivity|].
  intros claim.
  assert (H := claim (fun _ => None) (VDict [("Region", VStr "Sub-Saharan Africa")]) _
                 "Sub-Saharan Africa" eq_refl eq_refl).
  assert (Hout : ~ In "Sub-Saharan Africa" region_options).
  { unfold region_options. simpl. intros [H1 | [H1 | [H1 | [H1 | []]]]]; discriminate H1. }
  specialize (H Hout). vm_compute in H. discriminate H.
Qed.

(** C4, as amended.  The default "Europe and Central Asia" stands in for a
    preset entry that has no [Region] field: its snapshot has the indicator
    of Europe and Central Asia at 1 and the other three at 0.  An entry
    whose [Region] field holds a name outside the four known strings gets
    all four indicators 0. *)
Theorem preset_region_default f (entry : list (string * value)) pv :
  preset_values f (VDict entry) = Ok pv ->
  (Dict.get "Region" entry = None ->
   snapshot_regions pv = Ok (ints (0, 1, 0, 0))) /\
  (forall region : string,
      Dict.get "Region" entry = Some (VStr region) ->
      ~ In region region_options ->
      snapshot_regions pv = Ok (ints (0, 0, 0, 0))).
Proof.
  intros Hpv.
  destruct (preset_values_regions f _ pv Hpv) as (name & t & Hname & Ht & Hsnap).
  cbn [dot_get] in Hname. unfold Dict.get_default in Hname.
  split.
  - intros Hnone. rewrite Hnone in Hname. injection Hname as <-.
    vm_compute in Ht. injection Ht as <-. exact Hsnap.
  - intros region Hsome Hout. rewrite Hsome in Hname. injection Hname as <-.
    rewrite (map_regions_unknown_name region Hout) in Ht.
    injection Ht as <-. exact Hsnap.
Qed.

Lemma preset_region_default_witness :
  snapshot_regions
    (VDict (Dict.of_items
              ([("Population", VInt 5)] ++
               map (fun kv => (fst kv, VFloat (snd kv))) FLOAT_DEFAULTS ++
               region_items (0, 1, 0, 0)))) = Ok (ints (0, 1, 0, 0)).
Proof.
  apply (proj1 (preset_region_default (fun _ => None) [("Population", VInt 5)] _ eq_refl)).
  reflexivity.
Defined.

(** ** C5: the default region index *)

Lemma get_region_from_features_range features i :
  get_region_from_features features = Ok (Some i) -> 0 <= i <= 3.
Proof.
  unfold get_region_from_features. intros H.
  repeat match type of H with
         | (mbind _ (subscript ?v ?k)) = _ =>
             destruct (subscript v k); [cbn [mbind result_bind] in H | discriminate H]
         | (if ?b then _ else _) = _ => destruct b
         end;
    simplify_eq; lia.
Qed.

Lemma get_default_region_no_override : get_default_region VNone VNone = Ok (Some 0).
Proof. reflexivity. Qed.

(** C5, the code at the failing input.  Applying a preset entry whose region
    is "North America" stores a snapshot with the four region fields at 0;
    with that snapshot as the override, [get_region_from_features] passes
    its four tests and falls off its end, so the default region is [None]
    and not an index in 0..3. *)
Theorem get_default_region_falls_through f :
  exists selected_preset,
    preset_values f (VDict [("Region", VStr "North America")]) = Ok selected_preset /\
    snapshot_regions selected_preset = Ok (ints (0, 0, 0, 0)) /\
    get_default_region VNone selected_preset = Ok None.
Proof. eexists. split; [reflexivity|]. split; reflexivity. Qed.

(** ** C7: the snapshot made from a preset entry *)

Lemma preset_values_population f (entry : list (string * value)) pv :
  preset_values f (VDict entry) = Ok pv ->
  exists n, subscript pv "Population" = Ok (VInt n) /\
            py_int (Dict.get_default "Population" (VInt POPULATION_DEFAULT) entry) = Ok n.
Proof.
  intros H. apply preset_values_inv in H
    as (region_name & [[[a b] c] d] & population & floats & _ & _ & Hp & Hf & ->).
  exists population. split; [|exact Hp].
  open_floats Hf. reflexivity.
Qed.

Lemma preset_values_float f (entry : list (string * value)) pv key default :
  preset_values f (VDict entry) = Ok pv ->
  In (key, default) FLOAT_DEFAULTS ->
  exists q, subscript pv key = Ok (VFloat q) /\
            py_float f (Dict.get_default key (VFloat default) entry) = Ok q.
Proof.
  intros H Hin. apply preset_values_inv in H
    as (region_name & [[[a b] c] d] & population & floats & _ & _ & _ & Hf & ->).
  open_floats Hf.
  unfold FLOAT_DEFAULTS in Hin. cbn [In] in Hin.
  repeat (destruct Hin as [Hin | Hin];
          [injection Hin as <- <-; eexists; split; [reflexivity | eassumption] |]).
  destruct Hin.
Qed.

(** C7.  The preset entry with region "Middle East and North Africa" and
    population "5000000" gives the snapshot with the Middle East and North
    Africa indicator at 1, the other three at 0 and the integer 5000000 as
    population; whatever else the entry holds, as long as the conversion
    goes through.  In every snapshot made from a preset entry the population
    is the [int] of the entry's value and each of the ten other scalars is
    the [float] of the entry's value, with the hardcoded default taken for a
    field that the entry lacks. *)
Theorem apply_preset_snapshot :
  (forall f,
      preset_values f (VDict [("Region", VStr "Middle East and North Africa");
                              ("Population", VStr "5000000")]) =
      Ok (VDict [("Population", VInt 5000000);
                 ("GDP_per_capita", VFloat 41000.0);
                 ("Trade_union_density", VFloat 33.0);
                 ("Unemployment_rate", VFloat 8.0);
                 ("Health", VFloat 0.064);
                 ("Education", VFloat 0.052);
                 ("Housing", VFloat 0.0032);
                 ("Community_development", VFloat 0.0019);
                 ("Corporate_tax_rate", VFloat 21.0);
                 ("Inflation", VFloat 2.1);
                 ("IRLT", VFloat 7.9);
                 ("Region_East_Asia_and_Pacific", VInt 0);
                 ("Region_Europe_and_Central_Asia", VInt 0);
                 ("Region_Latin_America_and_Caribbean", VInt 0);
                 ("Region_Middle_East_and_North_Africa", VInt 1)])) /\
  (forall f (entry : list (string * value)) pv,
      preset_values f (VDict entry) = Ok pv ->
      (Dict.get "Region" entry = Some (VStr "Middle East and North Africa") ->
       snapshot_regions pv = Ok (ints (0, 0, 0, 1))) /\
      (Dict.get "Population" entry = Some (VStr "5000000") ->
       subscript pv "Population" = Ok (VInt 5000000)) /\
      (exists n, subscript pv "Population" = Ok (VInt n) /\
                 py_int (Dict.get_default "Population" (VInt 22000000) entry) = Ok n) /\
      (forall key default,
          In (key, default) FLOAT_DEFAULTS ->
          exists q, subscript pv key = Ok (VFloat q) /\
                    py_float f (Dict.get_default key (VFloat default) entry) = Ok q) /\
      (Dict.get "Population" entry = None ->
       subscript pv "Population" = Ok (VInt 22000000)) /\
      (forall key default,
          In (key, default) FLOAT_DEFAULTS ->
          Dict.get key entry = None ->
          subscript pv key = Ok (VFloat default))).
Proof.
  split; [reflexivity|].
  intros f entry pv Hpv.
  pose proof (preset_values_population f entry pv Hpv) as (n & Hn & Hint).
  pose proof (preset_values_regions f _ pv Hpv) as (name & t & Hname & Ht & Hsnap).
  cbn [dot_get] in Hname. unfold Dict.get_default in Hname, Hint.
  repeat split.
  - intros Hregion. rewrite Hregion in Hname. injection Hname as <-.
    vm_compute in Ht. injection Ht as <-. exact Hsnap.
  - intros Hpop. rewrite Hpop in Hint. vm_compute in Hint.
    injection Hint as <-. exact Hn.
  - exists n. split; [exact Hn | exact Hint].
  - intros key default Hin. by apply preset_values_float.
  - intros Hnone. rewrite Hnone in Hint. injection Hint as <-. exact Hn.
  - intros key default Hin Hnone.
    destruct (preset_values_float f entry pv key default Hpv Hin) as (q & Hq & Hfloat).
    unfold Dict.get_default in Hfloat. rewrite Hnone in Hfloat.
    injection Hfloat as <-. exact Hq.
Qed.

Lemma apply_preset_snapshot_witness :
  subscript
    (VDict (Dict.of_items
              ([("Population", VInt 5000000)] ++
               map (fun kv => (fst kv, VFloat (snd kv))) FLOAT_DEFAULTS ++
               region_items (0, 0, 0, 1)))) "Population" = Ok (VInt 5000000) /\
  subscript
    (VDict (Dict.of_items
              ([("Population", VInt 5000000)] ++
               map (fun kv => (fst kv, VFloat (snd kv))) FLOAT_DEFAULTS ++
               region_items (0, 0, 0, 1)))) "Health" = Ok (VFloat 0.064).
Proof.
  pose proof (proj2 apply_preset_snapshot (fun _ => None)
                [("Region", VStr "Middle East and North Africa");
                 ("Population", VStr "5000000")] _ eq_refl)
    as (_ & Hpop & _ & _ & _ & Hdefault).
  split.
  - apply Hpop. reflexivity.
  - apply (Hdefault "Health" 0.064%Q).
    + unfold FLOAT_DEFAULTS. simpl. tauto.
    + reflexivity.
Defined.

(** The button stores the snapshot as the selected preset, drops the loaded
    graph and starts a new run. *)
Lemma apply_preset_button_stores f (preset_data : list value) i label entry pv w :
  preset_data !! i = Some entry ->
  preset_values f entry = Ok pv ->
  apply_preset_button f preset_data i label w =
    (Rerun,
     World (<["selected_preset" := pv]>
              (delete "loaded_graph" (delete "loaded_graph_id" (session w))))
       (sent w)
       (shown w ++ [Message LSuccess "Applied preset: {}" [VStr label]])
       (cache_clears w)).
Proof.
  intros Hentry Hpv. unfold apply_preset_button.
  destruct preset_data as [|first rest]; [discriminate Hentry|].
  rewrite Hentry.
  unfold mbind, page_bind, session_discard, lift, session_set, st_success, st_show,
    st_rerun. cbn [session sent shown cache_clears].
  rewrite Hpv. reflexivity.
Qed.

(** ** C2: the priority of the defaults *)

(** C2, counterexample.  A loaded graph without a "features" entry is
    passed over: the population default is read from the preset, 5000000
    under one preset and 7000000 under another. *)
Lemma strict_priority_claim_fails :
  let loaded_graph := VDict [("name", VStr "My Graph"); ("x_axis", VStr "Population")] in
  get_default_value (fun _ => None) loaded_graph (VDict [("Population", VInt 5000000)])
    "Population" (VInt 22000000) true = Ok (VInt 5000000) /\
  get_default_value (fun _ => None) loaded_graph (VDict [("Population", VInt 7000000)])
    "Population" (VInt 22000000) true = Ok (VInt 7000000) /\
  ~ strict_priority_claim.
Proof.
  split; [reflexivity|]. split; [reflexivity|].
  intros claim.
  specialize (claim (fun _ => None)
                (VDict [("name", VStr "My Graph"); ("x_axis", VStr "Population")])
                (VDict [("Population", VInt 5000000)])
                (VDict [("Population", VInt 7000000)])
                "Population" (VInt 22000000) true eq_refl eq_refl eq_refl).
  vm_compute in claim. discriminate claim.
Qed.

(** C2, as amended.  The default of a feature is resolved in the order
    loaded graph, selected preset, hardcoded default, where a loaded graph
    counts when it is non-empty and has a "features" entry and a preset
    counts when it is non-empty.  When the loaded graph counts the result is
    the value its features hold for the key, whatever the preset; otherwise,
    when the preset counts, it is the preset's value for the key; the
    hardcoded default is taken when neither counts and also when the source
    that counts has no value for the key.  The value is converted to [int]
    for the population and to [float] for the other features; with neither
    source the population is 22000000 and the GDP per capita 41000.0. *)
Theorem get_default_value_priority f key fallback as_int :
  (forall graph features selected_preset,
      graph <> [] ->
      Dict.get "features" graph = Some (VDict features) ->
      get_default_value f (VDict graph) selected_preset key fallback as_int =
      coerce f as_int (Dict.get_default key fallback features)) /\
  (forall loaded_graph preset,
      passed_over loaded_graph ->
      preset <> [] ->
      get_default_value f loaded_graph (VDict preset) key fallback as_int =
      coerce f as_int (Dict.get_default key fallback preset)) /\
  (forall loaded_graph selected_preset,
      passed_over loaded_graph ->
      truthy selected_preset = false ->
      get_default_value f loaded_graph selected_preset key fallback as_int =
      coerce f as_int fallback) /\
  get_default_value f VNone VNone "Population" (VInt 22000000) true = Ok (VInt 22000000) /\
  get_default_value f VNone VNone "GDP_per_capita" (VFloat 41000.0) false =
    Ok (VFloat 41000.0).
Proof.
  repeat split.
  - intros graph features selected_preset Hne Hfeatures.
    unfold get_default_value, coerce.
    destruct graph as [|item graph']; [congruence|].
    cbn [truthy contains subscript]. unfold Dict.mem. rewrite Hfeatures.
    reflexivity.
  - intros loaded_graph preset Hover Hne.
    unfold get_default_value, coerce.
    destruct preset as [|item preset']; [congruence|].
    destruct Hover as [Hfalse | Hnot].
    + rewrite Hfalse. reflexivity.
    + rewrite Hnot. destruct (truthy loaded_graph); reflexivity.
  - intros loaded_graph selected_preset Hover Hfalse.
    unfold get_default_value, coerce.
    destruct Hover as [Hgraph | Hnot].
    + rewrite Hgraph. cbn [mbind result_bind]. rewrite Hfalse. reflexivity.
    + rewrite Hnot. destruct (truthy loaded_graph); cbn [mbind result_bind];
        rewrite Hfalse; reflexivity.
Qed.

Lemma get_default_value_priority_witness :
  get_default_value (fun _ => None)
    (VDict [("name", VStr "My Graph");
            ("features", VDict [("Population", VInt 9000000)])])
    (VDict [("Population", VInt 5000000)])
    "Population" (VInt 22000000) true = Ok (VInt 9000000) /\
  get_default_value (fun _ => None) VNone (VDict [("Population", VInt 5000000)])
    "Population" (VInt 22000000) true = Ok (VInt 5000000) /\
  get_default_value (fun _ => None) (VDict [("name", VStr "My Graph")]) VNone
    "Population" (VInt 22000000) true = Ok (VInt 22000000).
Proof.
  pose proof (get_default_value_priority (fun _ => None) "Population" (VInt 22000000) true)
    as (Hgraph & Hpreset & Hfallback & _).
  split; [|split].
  - apply (Hgraph [("name", VStr "My Graph");
                   ("features", VDict [("Population", VInt 9000000)])]
             [("Population", VInt 9000000)]).
    + discriminate.
    + reflexivity.
  - apply (Hpreset VNone [("Population", VInt 5000000)]).
    + left. reflexivity.
    + discriminate.
  - apply (Hfallback (VDict [("name", VStr "My Graph")]) VNone).
    + right. reflexivity.
    + reflexivity.
Defined.

(** ** The sweep: validation, failure, saving *)


(** Once the two tests are passed the request is posted, and nothing else
    is sent, however the backend answers. *)
Lemma generate_graph_posts backend c w :
  (x_min c < x_max c)%Q -> 5 <= steps c ->
  sent (snd (generate_graph_button backend c w)) = (sent w ++ [predict_request c])%list.
Proof.
  intros Hlt Hsteps. unfold generate_graph_button.
  destruct (Qle_bool (x_max c) (x_min c)) eqn:Hle.
  { apply Qle_bool_iff in Hle. by apply Qlt_not_le in Hlt. }
  apply Z.ltb_ge in Hsteps. rewrite Hsteps.
  unfold generate_real_predictions, try_except, requests_post, requests_send.
  fold (predict_request c).
  unfold mbind, page_bind, mret, page_ret, lift, st_error, st_success, st_show,
    session_set, st_rerun.
  cbn [session sent shown cache_clears].
  destruct (backend (predict_request c)) as [msg | status body]; [reflexivity|].
  destruct (status =? 200); [|reflexivity].
  destruct (dot_get body "x_values" (VList [])) as [xs|[]]; try reflexivity.
  destruct (dot_get body "predictions" (VList [])) as [ys|[]]; try reflexivity.
  destruct (is_not_none xs && is_not_none ys); reflexivity.
Qed.

(** *** C1 *)



(** *** C9 *)

(** C9.  When the prediction request fails, by a transport failure or by a
    status other than 200, the button returns normally, shows error
    messages only and leaves the whole session as it was; the series under
    [graph_data] is the one that was there before. *)
Theorem failed_sweep_keeps_graph backend c w :
  (forall body, backend (predict_request c) <> Reply 200 body) ->
  let r := generate_graph_button backend c w in
  fst r = Returned tt /\
  session (snd r) = session w /\
  session (snd r) !! "graph_data" = session w !! "graph_data" /\
  exists errors,
    errors <> [] /\
    shown (snd r) = (shown w ++ errors)%list /\
    Forall (fun m => msg_level m = LError) errors.
Proof.
  intros Hfail. unfold generate_graph_button.
  destruct (Qle_bool (x_max c) (x_min c)).
  { cbn. repeat split. eexists. split; [|split; [reflexivity|]]; [done|].
    repeat constructor. }
  destruct (steps c <? 5).
  { cbn. repeat split. eexists. split; [|split; [reflexivity|]]; [done|].
    repeat constructor. }
  unfold generate_real_predictions, try_except, requests_post, requests_send.
  fold (predict_request c).
  unfold mbind, page_bind, mret, page_ret, lift, st_error, st_success, st_show,
    session_set, st_rerun.
  cbn [session sent shown cache_clears].
  destruct (backend (predict_request c)) as [msg | status body] eqn:Hreply.
  - cbn. repeat split. rewrite <- app_assoc. eexists.
    split; [|split; [reflexivity|]]; [done|]. repeat constructor.
  - destruct (status =? 200) eqn:Hstatus.
    { apply Z.eqb_eq in Hstatus. subst. by destruct (Hfail body). }
    cbn. repeat split. rewrite <- app_assoc. eexists.
    split; [|split; [reflexivity|]]; [done|]. repeat constructor.
Qed.

Lemma failed_sweep_keeps_graph_witness :
  let w := World (<["graph_data" := VDict [("x_values", VList [VInt 1]);
                                           ("y_values", VList [VFloat 0.3]);
                                           ("feature_name", VStr "Population")]]> ∅)
             [] [] 0 in
  let r := generate_graph_button (unreachable_backend "timed out")
             (sweep_controls 0 10 20 EmptyString) w in
  fst r = Returned tt /\
  session (snd r) = session w /\
  session (snd r) !! "graph_data" = session w !! "graph_data" /\
  exists errors,
    errors <> [] /\
    shown (snd r) = (shown w ++ errors)%list /\
    Forall (fun m => msg_level m = LError) errors.
Proof.
  intros w.
  apply (failed_sweep_keeps_graph (unreachable_backend "timed out")
           (sweep_controls 0 10 20 EmptyString) w).
  intros body. discriminate.
Defined.

(** *** C8 *)

(** C8.  With an empty graph name the save controls send nothing and change
    nothing: the world after is the world before, whether or not the button
    was pressed. *)
Theorem empty_graph_name_not_saved backend user_id c pressed w :
  graph_name c = EmptyString ->
  snd (save_graph_button backend user_id c pressed w) = w.
Proof.
  intros Hname. unfold save_graph_button. rewrite Hname.
  unfold mbind, page_bind, session_attr, mret, page_ret.
  destruct (session w !! "graph_data") as [graph_data|]; [|reflexivity].
  destruct (is_not_none graph_data); [|reflexivity].
  rewrite andb_false_r. reflexivity.
Qed.

Lemma empty_graph_name_not_saved_witness :
  let w := World (<["graph_data" := VDict [("x_values", VList [VInt 1]);
                                           ("y_values", VList [VFloat 0.3]);
                                           ("feature_name", VStr "Population")]]> ∅)
             [] [] 0 in
  snd (save_graph_button answering_backend (VInt 1) (sweep_controls 0 10 20 EmptyString) true w) = w.
Proof.
  intros w.
  apply (empty_graph_name_not_saved answering_backend (VInt 1)
           (sweep_controls 0 10 20 EmptyString) true w).
  reflexivity.
Defined.

(** With a name, the same press posts the save request. *)
Example named_graph_is_saved :
  let w := World (<["graph_data" := VDict [("x_values", VList [VInt 1])]]> ∅) [] [] 0 in
  map rq_endpoint
    (sent (snd (save_graph_button answering_backend (VInt 1)
                  (sweep_controls 0 10 20 "My Graph") true w))) = [PlaygroundSave].
Proof. vm_compute. reflexivity. Qed.

(** ** C6: timeouts and failures of the API calls *)

(** The six API functions pass [timeout=10] and turn a transport failure
    into a value: here the two that load a graph and the presets. *)
Lemma load_graph_from_backend_guarded msg graph_id w :
  load_graph_from_backend (unreachable_backend msg) graph_id w =
    (Returned VNone,
     World (session w)
       (sent w ++ [Request GET (PlaygroundGraph graph_id) None (Some 10)])
       (shown w) (cache_clears w)).
Proof. reflexivity. Qed.

Lemma fetch_preset_options_guarded msg w :
  fetch_preset_options (unreachable_backend msg) w =
    (Returned VNone,
     World (session w) (sent w ++ [Request GET PlaygroundPresets None (Some 10)])
       (shown w) (cache_clears w)).
Proof. reflexivity. Qed.

Lemma api_functions_guarded msg w :
  fst (fetch_available_features (unreachable_backend msg) w) = Returned VNone /\
  fst (fetch_saved_graphs (unreachable_backend msg) (VInt 1) w) = Returned (VList []) /\
  fst (save_graph_to_backend (unreachable_backend msg) (VInt 1) "My Graph" "Population"
         0 10 20 [] w) = Returned (false, VDict [("error", VStr msg)]) /\
  fst (generate_real_predictions (unreachable_backend msg) [] "Population" 0 10 20 w) =
    Returned (VNone, VNone).
Proof. repeat split. Qed.

(** C6, the code at the failing input.  With the backend out of reach, the
    fetch of the graph named by [loaded_graph_id] and the fetch of the
    standard deviations each send a request that carries no timeout, and
    the [RequestException] leaves the script: no failure value is returned.
    [load_graph_from_backend], which requests the same graph with a timeout
    of 10 seconds inside a [try], returns [None] on the same backend. *)
Theorem unguarded_requests msg w :
  session w !! "loaded_graph_id" = Some (VInt 7) ->
  load_graph_by_id (unreachable_backend msg) w =
    (Raised (RequestException msg),
     World (session w) (sent w ++ [Request GET (PlaygroundGraph (VInt 7)) None None])
       (shown w) (cache_clears w)) /\
  current_compared (unreachable_backend msg) (sweep_controls 0 10 20 EmptyString) w =
    (Raised (RequestException msg),
     World (session w) (sent w ++ [Request GET ModelsStds None None])
       (shown w) (cache_clears w)) /\
  load_graph_from_backend (unreachable_backend msg) (VInt 7) w =
    (Returned VNone,
     World (session w) (sent w ++ [Request GET (PlaygroundGraph (VInt 7)) None (Some 10)])
       (shown w) (cache_clears w)).
Proof.
  intros Hid. split; [|split].
  - unfold load_graph_by_id, mbind, page_bind, session_get. rewrite Hid. reflexivity.
  - reflexivity.
  - reflexivity.
Qed.

Lemma unguarded_requests_witness :
  let w := World (<["loaded_graph_id" := VInt 7]> ∅) [] [] 0 in
  fst (load_graph_by_id (unreachable_backend "connection refused") w) =
    Raised (RequestException "connection refused") /\
  map rq_timeout (sent (snd (load_graph_by_id (unreachable_backend "connection refused") w)))
    = [None].
Proof.
  intros w.
  destruct (unguarded_requests "connection refused" w eq_refl) as [H _].
  rewrite H. split; reflexivity.
Defined.

(** ** C10: the options of the feature selector *)

Lemma drop_last_four_split {A} (l : list A) :
  exists dropped,
    l = (drop_last_four l ++ dropped)%list /\
    length dropped = Nat.min 4 (length l).
Proof.
  exists (skipn (length l - 4) l). unfold drop_last_four. split.
  - symmetry. apply firstn_skipn.
  - rewrite length_skipn. lia.
Qed.

(** C10.  When the fetch of the feature list fails, the session gets the
    eleven display names of [FEATURE_MAPPING], and the feature selector
    offers the first seven of them: the last four, Community development,
    Productivity, Inflation and IRLT, are cut off.  The cut takes the last
    four entries (all of them when there are fewer) of whatever list the
    session holds. *)
Theorem fallback_selector_options backend w :
  (session w !! "available_features" = Some VNone ->
   (forall body, backend features_request <> Reply 200 body) ->
   exists w',
     fst (load_available_features backend w) = Returned tt /\
     snd (load_available_features backend w) = w' /\
     session w' !! "available_features" =
       Some (VList [VStr "Population"; VStr "GDP per capita";
                    VStr "Trade union density"; VStr "Unemployment rate";
                    VStr "Health"; VStr "Education"; VStr "Housing";
                    VStr "Community development"; VStr "Productivity";
                    VStr "Inflation"; VStr "IRLT"]) /\
     compare_options w' =
       (Returned (VList [VStr "Population"; VStr "GDP per capita";
                         VStr "Trade union density"; VStr "Unemployment rate";
                         VStr "Health"; VStr "Education"; VStr "Housing"]), w')) /\
  (forall features,
      features <> [] ->
      session w !! "available_features" = Some (VList features) ->
      exists kept dropped,
        compare_options w = (Returned (VList kept), w) /\
        features = (kept ++ dropped)%list /\
        length dropped = Nat.min 4 (length features)).
Proof.
  split.
  - intros Hnone Hfail. eexists. split; [|split; [reflexivity|]].
    + unfold load_available_features, fetch_available_features, try_except,
        requests_get, requests_send.
      fold features_request.
      unfold mbind, page_bind, session_attr. rewrite Hnone.
      cbn [is_not_none session sent shown cache_clears].
      destruct (backend features_request) as [msg | status body] eqn:Hreply;
        [reflexivity|].
      destruct (status =? 200) eqn:Hstatus; [|reflexivity].
      apply Z.eqb_eq in Hstatus. subst. by destruct (Hfail body).
    + unfold load_available_features, fetch_available_features, try_except,
        requests_get, requests_send.
      fold features_request.
      unfold mbind, page_bind, session_attr. rewrite Hnone.
      cbn [is_not_none session sent shown cache_clears].
      destruct (backend features_request) as [msg | status body] eqn:Hreply.
      * cbn. unfold compare_options, mbind, page_bind, session_attr.
        cbn [session]. rewrite lookup_insert_eq. split; reflexivity.
      * destruct (status =? 200) eqn:Hstatus.
        { apply Z.eqb_eq in Hstatus. subst. by destruct (Hfail body). }
        cbn. unfold compare_options, mbind, page_bind, session_attr.
        cbn [session]. rewrite lookup_insert_eq. split; reflexivity.
  - intros features Hne Hsession.
    destruct (drop_last_four_split features) as (dropped & Hsplit & Hlen).
    exists (drop_last_four features), dropped.
    split; [|split; assumption].
    unfold compare_options, mbind, page_bind, session_attr. rewrite Hsession.
    destruct features; [congruence|]. reflexivity.
Qed.

Lemma fallback_selector_options_witness :
  compare_options (snd (load_available_features (unreachable_backend "down") fresh_world)) =
    (Returned (VList [VStr "Population"; VStr "GDP per capita";
                      VStr "Trade union density"; VStr "Unemployment rate";
                      VStr "Health"; VStr "Education"; VStr "Housing"]),
     snd (load_available_features (unreachable_backend "down") fresh_world)).
Proof.
  destruct (proj1 (fallback_selector_options (unreachable_backend "down") fresh_world))
    as (w' & _ & Hw' & _ & Hoptions).
  - reflexivity.
  - intros body. discriminate.
  - rewrite Hw'. exact Hoptions.
Defined.

(** * Further properties of the page *)

(** ** The API functions *)

Ltac run_call :=
  unfold fetch_available_features, fetch_saved_graphs, load_graph_from_backend,
    fetch_preset_options, save_graph_to_backend, generate_real_predictions,
    try_except, requests_get, requests_post, requests_send,
    mbind, page_bind, mret, page_ret, lift, st_error, st_show;
  cbn [session sent shown cache_clears fst snd].

(** X1.  Whatever the backend does, the six API functions are guarded calls: each
    sends one request with the timeout of 10 seconds, lets no
    [RequestException] out and leaves the session alone. *)
Theorem api_functions_guarded_calls backend :
  guarded (fetch_available_features backend) /\
  (forall user_id, guarded (fetch_saved_graphs backend user_id)) /\
  (forall graph_id, guarded (load_graph_from_backend backend graph_id)) /\
  guarded (fetch_preset_options backend) /\
  (forall user_id graph_name x_axis x_min x_max x_steps feature_values,
      guarded (save_graph_to_backend backend user_id graph_name x_axis x_min x_max
                 x_steps feature_values)) /\
  (forall feature_values x_axis x_min x_max steps,
      guarded (generate_real_predictions backend feature_values x_axis x_min x_max steps)).
Proof.
  repeat split; intros; run_call;
    repeat match goal with
           | |- context [backend ?rq] => destruct (backend rq) as [? | ? ?]
           | |- context [?s =? 200] => destruct (s =? 200)
           | |- context [dot_get ?b ?k ?d] => destruct (dot_get b k d) as [? | []]
           end;
    cbn [session sent shown cache_clears fst snd];
    try discriminate; try reflexivity;
    try (eexists; split; reflexivity).
Qed.

(** X2.  The failures that are told to the user and the ones that pass in
    silence.  When the backend gives no answer or a status other than 200,
    every fetch returns its empty value; the feature list and the
    prediction show one error message each, while the saved graphs, a graph
    loaded by id and the presets show nothing. *)
Theorem api_failure_values backend w :
  (forall rq body, backend rq <> Reply 200 body) ->
  (fst (fetch_available_features backend w) = Returned VNone /\
   exists m, shown (snd (fetch_available_features backend w)) = (shown w ++ [m])%list /\
             msg_level m = LError) /\
  (forall user_id,
      fst (fetch_saved_graphs backend user_id w) = Returned (VList []) /\
      shown (snd (fetch_saved_graphs backend user_id w)) = shown w) /\
  (forall graph_id,
      fst (load_graph_from_backend backend graph_id w) = Returned VNone /\
      shown (snd (load_graph_from_backend backend graph_id w)) = shown w) /\
  (fst (fetch_preset_options backend w) = Returned VNone /\
   shown (snd (fetch_preset_options backend w)) = shown w) /\
  (forall feature_values x_axis x_min x_max steps,
      let r := generate_real_predictions backend feature_values x_axis x_min x_max steps w in
      fst r = Returned (VNone, VNone) /\
      exists m, shown (snd r) = (shown w ++ [m])%list /\ msg_level m = LError).
Proof.
  intros Hfail.
  repeat split; intros; run_call;
    match goal with
    | |- context [backend ?rq] =>
        pose proof (Hfail rq) as Hrq; destruct (backend rq) as [msg | status body]
    end;
    try (destruct (status =? 200) eqn:Hstatus;
         [apply Z.eqb_eq in Hstatus; subst; by destruct (Hrq body) |]);
    cbn [session sent shown cache_clears fst snd];
    try reflexivity; try (eexists; split; reflexivity).
Qed.

Lemma api_failure_values_witness :
  fst (fetch_saved_graphs (unreachable_backend "down") (VInt 1) fresh_world) =
    Returned (VList []) /\
  shown (snd (fetch_saved_graphs (unreachable_backend "down") (VInt 1) fresh_world)) = [].
Proof.
  destruct (api_failure_values (unreachable_backend "down") fresh_world) as (_ & H & _).
  - intros rq body. discriminate.
  - exact (H (VInt 1)).
Defined.

(** ** Regions: what [map_regions] writes and [get_region_from_features] reads *)

Lemma region_options_dec (name : string) :
  {In name region_options} + {~ In name region_options}.
Proof. apply in_dec, string_dec. Qed.

(** X3.  [map_regions] never sets two indicators.  For a list or a
    dictionary it raises [TypeError]; for every other value it returns a
    vector that is one-hot exactly when the value is one of the four region
    names and all 0 when it is anything else, [None] included. *)
Theorem map_regions_at_most_one (region : value) :
  match region with
  | VList _ | VDict _ => map_regions region = Raise TypeError
  | _ =>
      exists t,
        map_regions region = Ok t /\
        (one_hot t <-> exists name, region = VStr name /\ In name region_options) /\
        (one_hot t \/ t = (0, 0, 0, 0))
  end.
Proof.
  assert (Hzero : ~ one_hot (0, 0, 0, 0)).
  { intros [H | [H | [H | H]]]; discriminate H. }
  assert (Hother : forall v k, hashable v = Ok k -> (forall s, k <> KStr s) ->
            exists t,
              map_regions v = Ok t /\
              (one_hot t <-> exists name, v = VStr name /\ In name region_options) /\
              (one_hot t \/ t = (0, 0, 0, 0))).
  { intros v k Hk Hns. exists (0, 0, 0, 0).
    split; [exact (map_regions_not_a_name v k Hk Hns)|].
    split; [split | by right].
    - intros H. by destruct Hzero.
    - intros (name & -> & _). injection Hk as <-. by destruct (Hns name). }
  destruct region as [| b | z | q | s | l | d].
  - by apply (Hother _ KNone).
  - by apply (Hother _ (KBool b)).
  - by apply (Hother _ (KInt z)).
  - by apply (Hother _ (KFloat q)).
  - destruct (region_options_dec s) as [Hin | Hout].
    + destruct (map_regions_known s Hin) as (t & Ht & Hone). exists t.
      split; [exact Ht|].
      split; [split; [intros _; by exists s | intros _; exact Hone] | by left].
    + exists (0, 0, 0, 0). split; [exact (map_regions_unknown_name s Hout)|].
      split; [split; [intros H; by destruct Hzero |] | by right].
      intros (name & Hname & Hin). injection Hname as ->. contradiction.
  - reflexivity.
  - reflexivity.
Qed.

Lemma regions_read_back (i : nat) (region : string) (snapshot : value) t :
  region_options !! i = Some region ->
  map_regions (VStr region) = Ok t ->
  snapshot_regions snapshot = Ok (ints t) ->
  get_region_from_features snapshot = Ok (Some (Z.of_nat i)).
Proof.
  intros Hi Ht Hsnap.
  unfold snapshot_regions in Hsnap. unfold get_region_from_features.
  destruct (subscript snapshot "Region_East_Asia_and_Pacific") as [a|]; [|discriminate].
  cbn [mbind result_bind] in Hsnap |- *.
  destruct (subscript snapshot "Region_Europe_and_Central_Asia") as [b|]; [|discriminate].
  cbn [mbind result_bind] in Hsnap |- *.
  destruct (subscript snapshot "Region_Latin_America_and_Caribbean") as [c|]; [|discriminate].
  cbn [mbind result_bind] in Hsnap |- *.
  destruct (subscript snapshot "Region_Middle_East_and_North_Africa") as [d|]; [|discriminate].
  cbn [mbind result_bind] in Hsnap |- *.
  destruct i as [|[|[|[|i]]]]; try discriminate Hi;
    injection Hi as <-; vm_compute in Ht; injection Ht as <-;
    injection Hsnap as -> -> -> ->; reflexivity.
Qed.

(** X4.  The region that the select box shows for a snapshot is the one that
    was written into it: the indicators that [map_regions] makes for the
    option at position [i], stored under the four region fields of any
    snapshot, are read back by [get_region_from_features] as index [i]. *)
Theorem region_round_trip (i : nat) (region : string) (snapshot : value) t :
  region_options !! i = Some region ->
  map_regions (VStr region) = Ok t ->
  snapshot_regions snapshot = Ok (ints t) ->
  get_region_from_features snapshot = Ok (Some (Z.of_nat i)).
Proof. apply regions_read_back. Qed.

Lemma region_round_trip_witness :
  get_region_from_features
    (VDict (feature_values (sweep_controls 0 10 20 EmptyString))) = Ok (Some 0).
Proof.
  apply (region_round_trip 0 "East Asia and Pacific" _ (1, 0, 0, 0)); reflexivity.
Defined.

(** X5.  [get_region_from_features] returns the position of the first region
    field that equals 1: the fields before it must be there and differ from
    1, the fields after it are not looked at and may be missing. *)
Theorem get_region_from_features_first (features : value) (i : Z) :
  get_region_from_features features = Ok (Some i) <->
  exists n key v,
    i = Z.of_nat n /\
    REGION_FIELDS !! n = Some key /\
    subscript features key = Ok v /\ eq_one v = true /\
    forall m earlier, (m < n)%nat -> REGION_FIELDS !! m = Some earlier ->
      exists u, subscript features earlier = Ok u /\ eq_one u = false.
Proof.
  unfold get_region_from_features. split.
  - intros H.
    destruct (subscript features "Region_East_Asia_and_Pacific") as [a|] eqn:Ha;
      [|discriminate]. cbn [mbind result_bind] in H.
    destruct (eq_one a) eqn:Ea.
    { injection H as <-. exists 0%nat, "Region_East_Asia_and_Pacific", a.
      repeat split; try done. intros m earlier Hm. lia. }
    destruct (subscript features "Region_Europe_and_Central_Asia") as [b|] eqn:Hb;
      [|discriminate]. cbn [mbind result_bind] in H.
    destruct (eq_one b) eqn:Eb.
    { injection H as <-. exists 1%nat, "Region_Europe_and_Central_Asia", b.
      repeat split; try done. intros [|m] earlier Hm Hk; [|lia].
      injection Hk as <-. eauto. }
    destruct (subscript features "Region_Latin_America_and_Caribbean") as [c|] eqn:Hc;
      [|discriminate]. cbn [mbind result_bind] in H.
    destruct (eq_one c) eqn:Ec.
    { injection H as <-. exists 2%nat, "Region_Latin_America_and_Caribbean", c.
      repeat split; try done. intros [|[|m]] earlier Hm Hk; [| |lia];
        injection Hk as <-; eauto. }
    destruct (subscript features "Region_Middle_East_and_North_Africa") as [d|] eqn:Hd;
      [|discriminate]. cbn [mbind result_bind] in H.
    destruct (eq_one d) eqn:Ed; [|discriminate].
    injection H as <-. exists 3%nat, "Region_Middle_East_and_North_Africa", d.
    repeat split; try done. intros [|[|[|m]]] earlier Hm Hk; [| | |lia];
      injection Hk as <-; eauto.
  - intros (n & key & v & -> & Hkey & Hv & Hone & Hearlier).
    destruct n as [|[|[|[|n]]]]; try discriminate Hkey; injection Hkey as <-.
    + rewrite Hv. cbn [mbind result_bind]. by rewrite Hone.
    + destruct (Hearlier 0%nat _ ltac:(lia) eq_refl) as (u0 & H0 & E0).
      rewrite H0. cbn [mbind result_bind]. rewrite E0.
      rewrite Hv. cbn [mbind result_bind]. by rewrite Hone.
    + destruct (Hearlier 0%nat _ ltac:(lia) eq_refl) as (u0 & H0 & E0).
      destruct (Hearlier 1%nat _ ltac:(lia) eq_refl) as (u1 & H1 & E1).
      rewrite H0. cbn [mbind result_bind]. rewrite E0.
      rewrite H1. cbn [mbind result_bind]. rewrite E1.
      rewrite Hv. cbn [mbind result_bind]. by rewrite Hone.
    + destruct (Hearlier 0%nat _ ltac:(lia) eq_refl) as (u0 & H0 & E0).
      destruct (Hearlier 1%nat _ ltac:(lia) eq_refl) as (u1 & H1 & E1).
      destruct (Hearlier 2%nat _ ltac:(lia) eq_refl) as (u2 & H2 & E2).
      rewrite H0. cbn [mbind result_bind]. rewrite E0.
      rewrite H1. cbn [mbind result_bind]. rewrite E1.
      rewrite H2. cbn [mbind result_bind]. rewrite E2.
      rewrite Hv. cbn [mbind result_bind]. by rewrite Hone.
Qed.

Lemma get_region_from_features_first_witness :
  get_region_from_features
    (VDict [("Region_East_Asia_and_Pacific", VInt 0);
            ("Region_Europe_and_Central_Asia", VFloat 1.0)]) = Ok (Some 1).
Proof.
  apply get_region_from_features_first.
  exists 1%nat, "Region_Europe_and_Central_Asia", (VFloat 1.0).
  repeat split.
  intros [|m] earlier Hm Hk; [|lia].
  injection Hk as <-. exists (VInt 0). split; reflexivity.
Defined.

(** ** The top of the script *)

Lemma load_graph_by_id_reply backend w :
  (truthy (default VNone (session w !! "loaded_graph_id")) = false ->
   sent (snd (load_graph_by_id backend w)) = sent w /\
   session (snd (load_graph_by_id backend w)) = session w /\
   fst (load_graph_by_id backend w) = Returned tt) /\
  (forall graph_id status body,
      session w !! "loaded_graph_id" = Some graph_id ->
      truthy graph_id = true ->
      backend (graph_request graph_id) = Reply status body ->
      fst (load_graph_by_id backend w) = Returned tt /\
      sent (snd (load_graph_by_id backend w)) = (sent w ++ [graph_request graph_id])%list /\
      session (snd (load_graph_by_id backend w)) = <["loaded_graph" := body]> (session w)).
Proof.
  unfold load_graph_by_id, mbind, page_bind, session_get, requests_get, requests_send,
    session_set, st_write, st_show, mret, page_ret.
  split.
  - intros Hfalsy. rewrite Hfalsy. auto.
  - intros graph_id status body Hid Htruthy Hreply. rewrite Hid. change (default VNone (Some graph_id)) with graph_id.
    rewrite Htruthy. fold (graph_request graph_id). rewrite Hreply. auto.
Qed.

(** X6.  The graph named by [loaded_graph_id] is fetched when the id is truthy,
    and the body of the answer becomes the loaded graph whatever the status
    code is; with no id, or a falsy one, nothing is sent and the session
    stays as it is. *)
Theorem load_graph_by_id_stores_reply backend w :
  (truthy (default VNone (session w !! "loaded_graph_id")) = false ->
   sent (snd (load_graph_by_id backend w)) = sent w /\
   session (snd (load_graph_by_id backend w)) = session w /\
   fst (load_graph_by_id backend w) = Returned tt) /\
  (forall graph_id status body,
      session w !! "loaded_graph_id" = Some graph_id ->
      truthy graph_id = true ->
      backend (graph_request graph_id) = Reply status body ->
      fst (load_graph_by_id backend w) = Returned tt /\
      sent (snd (load_graph_by_id backend w)) = (sent w ++ [graph_request graph_id])%list /\
      session (snd (load_graph_by_id backend w)) = <["loaded_graph" := body]> (session w)).
Proof. apply load_graph_by_id_reply. Qed.

Lemma load_graph_by_id_stores_reply_witness :
  let w := World (<["loaded_graph_id" := VInt 7]> ∅) [] [] 0 in
  let backend := fun _ => Reply 404 (VDict [("error", VStr "Graph not found")]) in
  session (snd (load_graph_by_id backend w)) !! "loaded_graph" =
    Some (VDict [("error", VStr "Graph not found")]).
Proof.
  intros w backend.
  destruct (proj2 (load_graph_by_id_stores_reply backend w) (VInt 7) 404
              (VDict [("error", VStr "Graph not found")]) eq_refl eq_refl eq_refl)
    as (_ & _ & ->).
  reflexivity.
Defined.

Lemma load_available_features_sets backend w :
  session w !! "available_features" = Some VNone ->
  fst (load_available_features backend w) = Returned tt ->
  exists names,
    session (snd (load_available_features backend w)) !! "available_features" =
      Some (VList names).
Proof.
  intros Hnone Hret.
  unfold load_available_features, mbind, page_bind, session_attr in *.
  rewrite Hnone in *. cbn [is_not_none] in *.
  destruct (fetch_available_features backend w) as [[features | e | |] w'];
    try discriminate Hret.
  destruct (truthy features).
  - unfold lift in *.
    destruct (iterate features) as [items|]; [|discriminate Hret].
    destruct (for_each display_name items) as [names|]; [|discriminate Hret].
    exists names. apply lookup_insert_eq.
  - eexists. apply lookup_insert_eq.
Qed.

(** X7.  The list of features is fetched once per session: when the session
    already holds a list nothing is sent and nothing changes, and a run that
    returns leaves a list behind, so that the next run is of that kind. *)
Theorem features_fetched_once backend w :
  (forall v, session w !! "available_features" = Some v -> is_not_none v = true ->
             load_available_features backend w = (Returned tt, w)) /\
  (fst (load_available_features backend w) = Returned tt ->
   let w1 := snd (load_available_features backend w) in
   load_available_features backend w1 = (Returned tt, w1)).
Proof.
  assert (Hset : forall v, forall w0 : world,
             session w0 !! "available_features" = Some v -> is_not_none v = true ->
             load_available_features backend w0 = (Returned tt, w0)).
  { intros v w0 Hv Hnot. unfold load_available_features, mbind, page_bind, session_attr.
    rewrite Hv, Hnot. reflexivity. }
  split; [intros v; apply (Hset v w)|].
  intros Hret w1. subst w1.
  destruct (session w !! "available_features") as [v|] eqn:Hv.
  - destruct (is_not_none v) eqn:Hnot.
    + rewrite (Hset v w Hv Hnot). cbn [snd]. by apply (Hset v w).
    + destruct v; try discriminate Hnot.
      destruct (load_available_features_sets backend w Hv Hret) as (names & Hnames).
      by apply (Hset (VList names)).
  - unfold load_available_features, mbind, page_bind, session_attr in Hret.
    rewrite Hv in Hret. discriminate Hret.
Qed.

Lemma features_fetched_once_witness :
  sent (snd (load_available_features (unreachable_backend "down")
               (snd (load_available_features (unreachable_backend "down") fresh_world)))) =
  [features_request].
Proof.
  rewrite (proj2 (features_fetched_once (unreachable_backend "down") fresh_world)).
  - reflexivity.
  - reflexivity.
Defined.

(** ** Feature names *)

Lemma dict_get_absent {V} (k : string) (d : list (string * V)) :
  ~ In k (Dict.keys d) -> Dict.get k d = None.
Proof.
  induction d as [|[k' v] d IH]; [reflexivity|].
  cbn [Dict.keys map In fst Dict.get]. intros Hout.
  destruct (String.eqb_spec k k') as [-> | Hne]; [tauto|].
  apply IH. unfold Dict.keys. tauto.
Qed.

(** X8.  The two tables are inverse to each other on the eleven features, and a
    name that the backend uses comes back unchanged after the translation to
    the display name and back; so does any name that is in neither table.
    Only a display name that the backend would use as a feature name is
    changed on the way. *)
Theorem feature_names_round_trip :
  (forall display backend_name,
      In (display, backend_name) FEATURE_MAPPING ->
      to_backend display = backend_name /\ to_display backend_name = display) /\
  (forall name,
      In name (map snd FEATURE_MAPPING) \/ ~ In name (Dict.keys FEATURE_MAPPING) ->
      to_backend (to_display name) = name).
Proof.
  split.
  - intros display backend_name Hin. unfold FEATURE_MAPPING in Hin. cbn [In] in Hin.
    repeat (destruct Hin as [Hin | Hin]; [injection Hin as <- <-; split; reflexivity |]).
    destruct Hin.
  - intros name [Hin | Hout].
    + unfold FEATURE_MAPPING in Hin. cbn [In map snd] in Hin.
      repeat (destruct Hin as [<- | Hin]; [reflexivity |]). destruct Hin.
    + destruct (in_dec string_dec name (map snd FEATURE_MAPPING)) as [Hin | Hnot].
      * unfold FEATURE_MAPPING in Hin. cbn [In map snd] in Hin.
        repeat (destruct Hin as [<- | Hin]; [reflexivity |]). destruct Hin.
      * assert (Hd : to_display name = name).
        { unfold to_display, Dict.get_default.
          rewrite dict_get_absent; [reflexivity|]. exact Hnot. }
        rewrite Hd. unfold to_backend, Dict.get_default.
        by rewrite dict_get_absent.
Qed.

Lemma feature_names_round_trip_witness :
  to_backend "GDP per capita" = "GDP_per_capita" /\
  to_display "GDP_per_capita" = "GDP per capita" /\
  to_backend (to_display "Corporate_tax_rate") = "Corporate_tax_rate".
Proof.
  destruct feature_names_round_trip as [Hpair Hback].
  split; [|split].
  - apply (Hpair "GDP per capita" "GDP_per_capita"). unfold FEATURE_MAPPING. simpl. tauto.
  - apply (Hpair "GDP per capita" "GDP_per_capita"). unfold FEATURE_MAPPING. simpl. tauto.
  - apply Hback. right. unfold FEATURE_MAPPING. simpl.
    intros H. repeat (destruct H as [H | H]; [discriminate H |]). destruct H.
Defined.

Lemma for_each_display_names (names : list string) :
  for_each display_name (map VStr names) = Ok (map (fun n => VStr (to_display n)) names).
Proof.
  induction names as [|n names IH]; [reflexivity|].
  cbn [map for_each display_name mbind result_bind]. rewrite IH. reflexivity.
Qed.

(** X9.  When the backend lists its features, the session gets their display
    names in the same order: a name of [FEATURE_MAPPING] is translated, any
    other name is kept as the backend wrote it. *)
Theorem features_translated backend w (names : list string) body :
  session w !! "available_features" = Some VNone ->
  backend features_request = Reply 200 body ->
  dot_get body "features" (VList []) = Ok (VList (map VStr names)) ->
  names <> [] ->
  load_available_features backend w =
    (Returned tt,
     World (<["available_features" := VList (map (fun n => VStr (to_display n)) names)]>
              (session w))
       (sent w ++ [features_request]) (shown w) (cache_clears w)).
Proof.
  intros Hnone Hreply Hbody Hne.
  unfold load_available_features, fetch_available_features, try_except, requests_get,
    requests_send, mbind, page_bind, session_attr, lift.
  fold features_request. rewrite Hnone, Hreply. cbn [is_not_none Z.eqb Pos.eqb].
  rewrite Hbody. cbn [session sent shown cache_clears].
  destruct names as [|n names]; [congruence|].
  cbn [truthy map iterate]. change (VStr n :: map VStr names) with (map VStr (n :: names)).
  rewrite for_each_display_names. reflexivity.
Qed.

Lemma features_translated_witness :
  let backend := fun _ =>
    Reply 200 (VDict [("features", VList [VStr "GDP_per_capita"; VStr "Corporate_tax_rate"])]) in
  session (snd (load_available_features backend fresh_world)) !! "available_features" =
    Some (VList [VStr "GDP per capita"; VStr "Corporate_tax_rate"]).
Proof.
  intros backend.
  rewrite (features_translated backend fresh_world ["GDP_per_capita"; "Corporate_tax_rate"]
             (VDict [("features", VList [VStr "GDP_per_capita"; VStr "Corporate_tax_rate"])])).
  - reflexivity.
  - reflexivity.
  - reflexivity.
  - reflexivity.
  - discriminate.
Defined.

(** X10.  An answer with status 200 and no features in it, be the list empty,
    null or missing, is treated like a failure: the session gets the eleven
    display names and the warning is shown. *)
Theorem features_fallback_on_empty backend w body features :
  session w !! "available_features" = Some VNone ->
  backend features_request = Reply 200 body ->
  dot_get body "features" (VList []) = Ok features ->
  truthy features = false ->
  load_available_features backend w =
    (Returned tt,
     World (<["available_features" := VList (map VStr (Dict.keys FEATURE_MAPPING))]>
              (session w))
       (sent w ++ [features_request])
       (shown w ++ [Message LWarning "Backend unavailable - using default features" []])
       (cache_clears w)).
Proof.
  intros Hnone Hreply Hbody Hfalsy.
  unfold load_available_features, fetch_available_features, try_except, requests_get,
    requests_send, mbind, page_bind, session_attr, lift.
  fold features_request. rewrite Hnone, Hreply. cbn [is_not_none Z.eqb Pos.eqb].
  rewrite Hbody. cbn [session sent shown cache_clears]. rewrite Hfalsy.
  reflexivity.
Qed.

Lemma features_fallback_on_empty_witness :
  let backend := fun _ => Reply 200 (VDict []) in
  compare_options (snd (load_available_features backend fresh_world)) =
    (Returned (VList [VStr "Population"; VStr "GDP per capita";
                      VStr "Trade union density"; VStr "Unemployment rate";
                      VStr "Health"; VStr "Education"; VStr "Housing"]),
     snd (load_available_features backend fresh_world)).
Proof.
  intros backend.
  rewrite (features_fallback_on_empty backend fresh_world (VDict []) (VList [])
             eq_refl eq_refl eq_refl eq_refl).
  reflexivity.
Defined.

(** ** Authentication and logout *)

Lemma foldr_delete_lookup (keys : list string) (s : gmap string value) (k : string) :
  foldr (fun key m => delete key m) s keys !! k =
    if decide (k ∈ keys) then None else s !! k.
Proof.
  induction keys as [|key keys IH]; [reflexivity|].
  cbn [foldr]. destruct (decide (key = k)) as [-> | Hne].
  - rewrite lookup_delete_eq. rewrite decide_True by apply list_elem_of_here.
    reflexivity.
  - rewrite lookup_delete_ne by done. rewrite IH.
    destruct (decide (k ∈ keys)) as [Hin | Hout].
    + rewrite decide_True by (by apply list_elem_of_further). reflexivity.
    + rewrite decide_False; [reflexivity|].
      intros [Heq | Hin]%elem_of_cons; [congruence | contradiction].
Qed.

Lemma session_delete_all_empty w :
  session (snd (session_delete_all w)) = ∅.
Proof.
  cbn [session_delete_all snd session]. apply map_eq. intros k.
  rewrite foldr_delete_lookup, lookup_empty.
  destruct (decide (k ∈ map fst (map_to_list (session w)))) as [Hin | Hout];
    [reflexivity|].
  destruct (session w !! k) as [v|] eqn:Hk; [|reflexivity].
  destruct Hout. apply list_elem_of_fmap. exists (k, v).
  split; [reflexivity|]. by apply elem_of_map_to_list.
Qed.

Lemma init_session_keeps (k : string) w :
  k <> "graph_data" -> k <> "available_features" ->
  session (snd (init_session w)) !! k = session w !! k.
Proof.
  intros H1 H2. cbn [init_session snd session].
  repeat case_match; rewrite ?lookup_insert_ne by done; reflexivity.
Qed.

Lemma require_authenticated_stops home_pressed w :
  truthy (default (VBool false) (session w !! "authenticated")) = false ->
  exists rest,
    require_authenticated home_pressed w =
      (Stopped,
       World (session w) (sent w)
         (shown w ++ Message LError "Please log in first!!" [] :: rest) (cache_clears w)).
Proof.
  intros Hauth.
  unfold require_authenticated, mbind, page_bind, session_get_or. rewrite Hauth.
  destruct home_pressed; cbn; rewrite <- app_assoc; eexists; reflexivity.
Qed.

Lemma page_top_unauthenticated backend home_pressed w :
  truthy (default (VBool false) (session w !! "authenticated")) = false ->
  fst (page_top backend home_pressed w) = Stopped /\
  sent (snd (page_top backend home_pressed w)) = sent w /\
  session (snd (page_top backend home_pressed w)) = session (snd (init_session w)) /\
  exists rest,
    shown (snd (page_top backend home_pressed w)) =
      (shown w ++ Message LError "Please log in first!!" [] :: rest)%list.
Proof.
  intros Hauth.
  rewrite <- (init_session_keeps "authenticated" w) in Hauth by done.
  destruct (require_authenticated_stops home_pressed _ Hauth) as (rest & Hstop).
  unfold page_top, mbind, page_bind.
  change (init_session w) with (Returned tt, snd (init_session w)).
  cbv beta iota. rewrite Hstop.
  repeat split. by exists rest.
Qed.

(** X11.  Without authentication the page stops before anything is sent: the
    session only gets its two initial entries, no request goes out, and the
    run ends at the guard, whether or not the home button was pressed. *)
Theorem unauthenticated_page_stops backend home_pressed w :
  truthy (default (VBool false) (session w !! "authenticated")) = false ->
  fst (page_top backend home_pressed w) = Stopped /\
  sent (snd (page_top backend home_pressed w)) = sent w /\
  session (snd (page_top backend home_pressed w)) = session (snd (init_session w)) /\
  exists rest,
    shown (snd (page_top backend home_pressed w)) =
      (shown w ++ Message LError "Please log in first!!" [] :: rest)%list.
Proof. apply page_top_unauthenticated. Qed.

Lemma unauthenticated_page_stops_witness :
  fst (page_top answering_backend false (World ∅ [] [] 0)) = Stopped /\
  sent (snd (page_top answering_backend false (World ∅ [] [] 0))) = [].
Proof.
  assert (H : truthy (default (VBool false)
                        (session (World ∅ [] [] 0) !! "authenticated")) = false)
    by (vm_compute; reflexivity).
  destruct (unauthenticated_page_stops answering_backend false (World ∅ [] [] 0) H)
    as (H1 & H2 & _).
  split; assumption.
Defined.

(** X12.  Logout empties the session, whatever it held, and ends the run; a run
    of the page on the emptied session stops at the authentication guard
    and sends nothing. *)
Theorem logout_clears_session backend home_pressed w :
  let w1 := snd (logout_button w) in
  fst (logout_button w) = Stopped /\
  session w1 = ∅ /\
  sent w1 = sent w /\
  fst (page_top backend home_pressed w1) = Stopped /\
  sent (snd (page_top backend home_pressed w1)) = sent w.
Proof.
  intros w1.
  assert (Hempty : session w1 = ∅).
  { subst w1. unfold logout_button, mbind, page_bind.
    pose proof (session_delete_all_empty w) as H.
    destruct (session_delete_all w) as [[[] | | |] w'] eqn:Hw'; try discriminate Hw'.
    exact H. }
  assert (Hsent : sent w1 = sent w) by reflexivity.
  repeat split; try done.
  - apply page_top_unauthenticated. rewrite Hempty. reflexivity.
  - rewrite <- Hsent. apply page_top_unauthenticated. rewrite Hempty. reflexivity.
Qed.

(** ** Presets and saved graphs as sources of the defaults *)

(** X13.  The two buttons leave one source of defaults behind.  After "Apply
    Preset" the session holds the snapshot and neither a loaded graph nor
    the id of one; after "Load Graph" it holds the chosen graph and no
    preset.  Both end in a rerun. *)
Theorem preset_and_graph_exclusive f w :
  (forall (preset_data : list value) i label entry pv,
      preset_data !! i = Some entry ->
      preset_values f entry = Ok pv ->
      let r := apply_preset_button f preset_data i label w in
      fst r = Rerun /\
      session (snd r) !! "selected_preset" = Some pv /\
      session (snd r) !! "loaded_graph" = None /\
      session (snd r) !! "loaded_graph_id" = None) /\
  (forall (saved_graphs : list value) i graph name,
      saved_graphs !! i = Some graph ->
      subscript graph "name" = Ok name ->
      let r := load_graph_button saved_graphs i w in
      fst r = Rerun /\
      session (snd r) !! "loaded_graph" = Some graph /\
      session (snd r) !! "selected_preset" = None /\
      sent (snd r) = sent w).
Proof.
  split.
  - intros preset_data i label entry pv Hentry Hpv r. subst r.
    rewrite (apply_preset_button_stores f preset_data i label entry pv w Hentry Hpv).
    cbn [fst snd session]. split; [reflexivity|].
    rewrite lookup_insert_eq, !lookup_insert_ne, lookup_delete_eq by done.
    rewrite lookup_delete_ne, lookup_delete_eq by done. done.
  - intros saved_graphs i graph name Hgraph Hname r. subst r.
    unfold load_graph_button. rewrite Hgraph.
    unfold mbind, page_bind, session_set, session_discard, lift, st_success, st_show,
      st_rerun.
    cbn [session sent shown cache_clears]. rewrite Hname.
    cbn [fst snd session sent]. split; [reflexivity|].
    rewrite lookup_delete_ne, lookup_insert_eq, lookup_delete_eq by done. done.
Qed.

Lemma preset_and_graph_exclusive_witness :
  let w := World (<["selected_preset" := VDict [("Population", VInt 5)]]> ∅) [] [] 0 in
  let r := load_graph_button [VDict [("name", VStr "My Graph")]] 0 w in
  session (snd r) !! "selected_preset" = None.
Proof.
  intros w r.
  destruct (proj2 (preset_and_graph_exclusive (fun _ => None) w)
              [VDict [("name", VStr "My Graph")]] 0%nat
              (VDict [("name", VStr "My Graph")]) (VStr "My Graph") eq_refl eq_refl)
    as (_ & _ & H & _).
  exact H.
Defined.

(** X14.  After a preset is applied the controls show it: with the snapshot as
    the selected preset and no loaded graph, the default of the population
    and of each of the ten other scalars is the snapshot's value, and the
    default region is the position of the preset's region among the four
    options. *)
Theorem applied_preset_is_shown f entry pv :
  preset_values f entry = Ok pv ->
  (exists n, subscript pv "Population" = Ok (VInt n) /\
             get_default_value f VNone pv "Population" (VInt 22000000) true =
               Ok (VInt n)) /\
  (forall key default,
      In (key, default) FLOAT_DEFAULTS ->
      exists q, subscript pv key = Ok (VFloat q) /\
                get_default_value f VNone pv key (VFloat default) false = Ok (VFloat q)) /\
  (forall i region,
      region_options !! i = Some region ->
      dot_get entry "Region" (VStr EUROPE) = Ok (VStr region) ->
      get_default_region VNone pv = Ok (Some (Z.of_nat i))).
Proof.
  intros Hpv.
  pose proof (preset_values_regions f entry pv Hpv) as (name & t & Hname & Ht & Hsnap).
  apply preset_values_inv in Hpv
    as (region_name & [[[a b] c] d] & population & floats & _ & _ & _ & Hf & ->).
  open_floats Hf.
  split; [|split].
  - exists population. split; reflexivity.
  - intros key default Hin. unfold FLOAT_DEFAULTS in Hin. cbn [In] in Hin.
    repeat (destruct Hin as [Hin | Hin];
            [injection Hin as <- <-; eexists; split; reflexivity |]).
    destruct Hin.
  - intros i region Hi Hregion. rewrite Hregion in Hname. injection Hname as <-.
    unfold get_default_region. cbn [truthy mbind result_bind].
    by apply (regions_read_back i region _ t).
Qed.

Lemma applied_preset_is_shown_witness :
  get_default_region VNone
    (VDict (Dict.of_items
              ([("Population", VInt 5000000)] ++
               map (fun kv => (fst kv, VFloat (snd kv))) FLOAT_DEFAULTS ++
               region_items (0, 0, 0, 1)))) = Ok (Some 3).
Proof.
  destruct (applied_preset_is_shown (fun _ => None)
              (VDict [("Region", VStr "Middle East and North Africa");
                      ("Population", VStr "5000000")]) _ eq_refl) as (_ & _ & H).
  apply (H 3%nat "Middle East and North Africa"); reflexivity.
Defined.

(** X15.  A preset entry that cannot be converted is not applied, but the loaded
    graph is gone all the same: the two deletions come first, then the
    exception of the conversion leaves the script. *)
Theorem apply_preset_failure f (preset_data : list value) i label entry e w :
  preset_data !! i = Some entry ->
  preset_values f entry = Raise e ->
  apply_preset_button f preset_data i label w =
    (Raised e,
     World (delete "loaded_graph" (delete "loaded_graph_id" (session w)))
       (sent w) (shown w) (cache_clears w)).
Proof.
  intros Hentry Hpv. unfold apply_preset_button.
  destruct preset_data as [|first rest]; [discriminate Hentry|].
  rewrite Hentry.
  unfold mbind, page_bind, session_discard, lift.
  cbn [session sent shown cache_clears]. rewrite Hpv. reflexivity.
Qed.

Lemma apply_preset_failure_witness :
  let w := World (<["loaded_graph" := VDict [("name", VStr "My Graph")]]> ∅) [] [] 0 in
  let r := apply_preset_button (fun _ => None)
             [VDict [("Population", VStr "n/a")]] 0 "Atlantis (2020)" w in
  fst r = Raised ValueError /\ session (snd r) !! "loaded_graph" = None.
Proof.
  intros w r. subst r.
  rewrite (apply_preset_failure (fun _ => None) [VDict [("Population", VStr "n/a")]] 0
             "Atlantis (2020)" (VDict [("Population", VStr "n/a")]) ValueError w
             eq_refl eq_refl).
  split; reflexivity.
Defined.

(** ** Generating, drawing, saving and clearing *)

(** X16.  A sweep that the backend answers with status 200 and two series
    replaces the active chart: the session gets the series as the backend
    returned them, labelled with the display name of the feature, the
    success message is shown and the page reruns.  A missing key counts as
    an empty series.  When the two series are lists, the main area then
    draws exactly these series. *)
Theorem generate_graph_stores_series backend c w body xs ys :
  (x_min c < x_max c)%Q -> 5 <= steps c ->
  backend (predict_request c) = Reply 200 body ->
  dot_get body "x_values" (VList []) = Ok xs ->
  dot_get body "predictions" (VList []) = Ok ys ->
  is_not_none xs = true -> is_not_none ys = true ->
  let w1 := World (<["graph_data" := VDict [("x_values", xs); ("y_values", ys);
                                            ("feature_name", VStr (compare_feature c))]]>
                     (session w))
              (sent w ++ [predict_request c])
              (shown w ++ [Message LSuccess "Graph generated successfully!" []])
              (cache_clears w) in
  generate_graph_button backend c w = (Rerun, w1) /\
  (forall lx ly, xs = VList lx -> ys = VList ly ->
     main_content w1 = (Returned (Chart xs ys (VStr (compare_feature c))), w1)).
Proof.
  intros Hlt Hsteps Hreply Hxs Hys Hx Hy w1. subst w1. split.
  - unfold generate_graph_button.
    destruct (Qle_bool (x_max c) (x_min c)) eqn:Hle.
    { apply Qle_bool_iff in Hle. by apply Qlt_not_le in Hlt. }
    apply Z.ltb_ge in Hsteps. rewrite Hsteps.
    unfold generate_real_predictions, try_except, requests_post, requests_send.
    fold (predict_request c).
    unfold mbind, page_bind, mret, page_ret, lift, st_error, st_success, st_show,
      session_set, st_rerun.
    cbn [session sent shown cache_clears].
    rewrite Hreply. cbn [Z.eqb Pos.eqb]. rewrite Hxs, Hys, Hx, Hy. reflexivity.
  - intros lx ly -> ->.
    unfold main_content, mbind, page_bind, session_attr, lift.
    cbn [session]. rewrite lookup_insert_eq. reflexivity.
Qed.

Lemma generate_graph_stores_series_witness :
  let c := sweep_controls 0 10 20 EmptyString in
  let backend := fun _ => Reply 200 (VDict [("x_values", VList [VInt 0; VInt 10])]) in
  fst (main_content (snd (generate_graph_button backend c fresh_world))) =
    Returned (Chart (VList [VInt 0; VInt 10]) (VList []) (VStr "Population")).
Proof.
  intros c backend.
  assert (Hlt : (x_min c < x_max c)%Q) by reflexivity.
  assert (Hsteps : 5 <= steps c) by (vm_compute; discriminate).
  destruct (generate_graph_stores_series backend c fresh_world
              (VDict [("x_values", VList [VInt 0; VInt 10])])
              (VList [VInt 0; VInt 10]) (VList [])
              Hlt Hsteps eq_refl eq_refl eq_refl eq_refl eq_refl) as [Hgen Hdraw].
  rewrite Hgen. cbn [snd]. rewrite (Hdraw _ _ eq_refl eq_refl). reflexivity.
Defined.

(** A stored series that is a number is refused when the chart is made. *)
Example main_content_scalar_series :
  fst (main_content
         (World (<["graph_data" := VDict [("x_values", VInt 5); ("y_values", VList []);
                                          ("feature_name", VStr "Population")]]> ∅)
            [] [] 0)) = Raised ValueError.
Proof. reflexivity. Qed.

(** X17.  An answer with status 200 in which one of the two series is null is
    not stored: the error message is shown, the run goes on and the session
    is as before. *)
Theorem generate_graph_null_series backend c w body xs ys :
  (x_min c < x_max c)%Q -> 5 <= steps c ->
  backend (predict_request c) = Reply 200 body ->
  dot_get body "x_values" (VList []) = Ok xs ->
  dot_get body "predictions" (VList []) = Ok ys ->
  xs = VNone \/ ys = VNone ->
  generate_graph_button backend c w =
    (Returned tt,
     World (session w) (sent w ++ [predict_request c])
       (shown w ++ [Message LError "Failed to generate predictions. Please try again." []])
       (cache_clears w)).
Proof.
  intros Hlt Hsteps Hreply Hxs Hys Hnull.
  unfold generate_graph_button.
  destruct (Qle_bool (x_max c) (x_min c)) eqn:Hle.
  { apply Qle_bool_iff in Hle. by apply Qlt_not_le in Hlt. }
  apply Z.ltb_ge in Hsteps. rewrite Hsteps.
  unfold generate_real_predictions, try_except, requests_post, requests_send.
  fold (predict_request c).
  unfold mbind, page_bind, mret, page_ret, lift, st_error, st_success, st_show,
    session_set, st_rerun.
  cbn [session sent shown cache_clears].
  rewrite Hreply. cbn [Z.eqb Pos.eqb]. rewrite Hxs, Hys.
  destruct Hnull as [-> | ->]; [reflexivity|].
  cbn [is_not_none]. rewrite andb_false_r. reflexivity.
Qed.

Lemma generate_graph_null_series_witness :
  let c := sweep_controls 0 10 20 EmptyString in
  let backend := fun _ => Reply 200 (VDict [("x_values", VList [VInt 0]);
                                            ("predictions", VNone)]) in
  session (snd (generate_graph_button backend c fresh_world)) = session fresh_world.
Proof.
  intros c backend.
  assert (Hlt : (x_min c < x_max c)%Q) by reflexivity.
  assert (Hsteps : 5 <= steps c) by (vm_compute; discriminate).
  rewrite (generate_graph_null_series backend c fresh_world
             (VDict [("x_values", VList [VInt 0]); ("predictions", VNone)])
             (VList [VInt 0]) VNone Hlt Hsteps eq_refl eq_refl eq_refl (or_intror eq_refl)).
  reflexivity.
Defined.

(** X18.  Saving never writes the session.  With a chart on the page and a name
    given, a press of the button posts one request; the saved graphs are
    dropped from the cache and the page reruns exactly when the answer has
    status 201, and with any other answer or none the cache is left alone
    and no rerun takes place. *)
Theorem save_graph_outcome backend user_id c w graph_data :
  session w !! "graph_data" = Some graph_data ->
  is_not_none graph_data = true ->
  graph_name c <> EmptyString ->
  let r := save_graph_button backend user_id c true w in
  session (snd r) = session w /\
  sent (snd r) = (sent w ++ [save_request user_id c])%list /\
  ((exists body, backend (save_request user_id c) = Reply 201 body) ->
   fst r = Rerun /\ cache_clears (snd r) = S (cache_clears w)) /\
  ((forall body, backend (save_request user_id c) <> Reply 201 body) ->
   fst r <> Rerun /\ cache_clears (snd r) = cache_clears w).
Proof.
  intros Hdata Hnot Hname r. subst r.
  apply String.eqb_neq in Hname.
  unfold save_graph_button, save_graph_to_backend, try_except, requests_post,
    requests_send.
  fold (save_request user_id c).
  unfold mbind, page_bind, mret, page_ret, lift, st_error, st_success, st_show,
    st_cache_data_clear, st_rerun, session_attr.
  rewrite Hdata, Hnot, Hname. cbn [andb negb session sent shown cache_clears].
  destruct (backend (save_request user_id c)) as [msg | status body] eqn:Hreply.
  - cbn [fst snd session sent cache_clears].
    split; [reflexivity | split; [reflexivity | split]].
    + intros (body & Hbody). discriminate Hbody.
    + intros _. split; [discriminate | reflexivity].
  - destruct (status =? 201) eqn:Hstatus.
    + apply Z.eqb_eq in Hstatus. subst status.
      cbn [fst snd session sent cache_clears].
      split; [reflexivity | split; [reflexivity | split]].
      * intros _. split; reflexivity.
      * intros Hno. by destruct (Hno body).
    + apply Z.eqb_neq in Hstatus.
      destruct (dot_get body "error" (VStr "Unknown error")) as [err|e];
        cbn [fst snd session sent cache_clears];
        (split; [reflexivity | split; [reflexivity | split]]);
        [ intros (body' & Hbody); injection Hbody as Hs _; congruence
        | intros _; split; [discriminate | reflexivity]
        | intros (body' & Hbody); injection Hbody as Hs _; congruence
        | intros _; split; [discriminate | reflexivity] ].
Qed.

Lemma save_graph_outcome_witness :
  let w := World (<["graph_data" := VDict [("x_values", VList [VInt 1])]]> ∅) [] [] 0 in
  let r := save_graph_button answering_backend (VInt 1)
             (sweep_controls 0 10 20 "My Graph") true w in
  session (snd r) = session w /\ fst r <> Rerun /\ cache_clears (snd r) = 0%nat.
Proof.
  intros w r.
  destruct (save_graph_outcome answering_backend (VInt 1)
              (sweep_controls 0 10 20 "My Graph") w
              (VDict [("x_values", VList [VInt 1])]) eq_refl eq_refl)
    as (Hsession & _ & _ & Hfail).
  - discriminate.
  - split; [exact Hsession|]. apply Hfail. intros body. discriminate.
Defined.

(** X19.  "Clear Graph" removes the chart and the loaded graph and keeps the
    rest: the main area draws the placeholder, the save controls send
    nothing, the selected preset stays, and so does the id a graph was
    loaded by, so that the next run fetches that graph again. *)
Theorem clear_graph_keeps_id backend w :
  let w1 := snd (clear_graph_button w) in
  fst (clear_graph_button w) = Rerun /\
  main_content w1 = (Returned Placeholder, w1) /\
  (forall user_id c pressed, save_graph_button backend user_id c pressed w1 = (Returned tt, w1)) /\
  session w1 !! "loaded_graph" = None /\
  session w1 !! "selected_preset" = session w !! "selected_preset" /\
  session w1 !! "loaded_graph_id" = session w !! "loaded_graph_id" /\
  (forall graph_id status body,
      session w !! "loaded_graph_id" = Some graph_id ->
      truthy graph_id = true ->
      backend (graph_request graph_id) = Reply status body ->
      session (snd (load_graph_by_id backend w1)) !! "loaded_graph" = Some body).
Proof.
  intros w1.
  assert (Hs : session w1 = delete "loaded_graph" (<["graph_data" := VNone]> (session w)))
    by reflexivity.
  assert (Hdata : session w1 !! "graph_data" = Some VNone).
  { rewrite Hs, lookup_delete_ne by done. apply lookup_insert_eq. }
  assert (Hid : session w1 !! "loaded_graph_id" = session w !! "loaded_graph_id").
  { rewrite Hs, lookup_delete_ne, lookup_insert_ne by done. done. }
  split; [reflexivity|]. split; [|split; [|split; [|split; [|split]]]].
  - unfold main_content, mbind, page_bind, session_attr. rewrite Hdata. reflexivity.
  - intros user_id c pressed.
    unfold save_graph_button, mbind, page_bind, session_attr. rewrite Hdata. reflexivity.
  - rewrite Hs. apply lookup_delete_eq.
  - rewrite Hs, lookup_delete_ne, lookup_insert_ne by done. done.
  - exact Hid.
  - intros graph_id status body Hgraph Htruthy Hreply.
    rewrite <- Hid in Hgraph.
    destruct (proj2 (load_graph_by_id_reply backend w1) graph_id status body
                Hgraph Htruthy Hreply) as (_ & _ & ->).
    apply lookup_insert_eq.
Qed.

Lemma clear_graph_keeps_id_witness :
  let w := World (<["loaded_graph_id" := VInt 7]>
                    (<["loaded_graph" := VDict [("name", VStr "My Graph")]]> ∅)) [] [] 0 in
  let backend := fun _ => Reply 200 (VDict [("name", VStr "My Graph")]) in
  session (snd (clear_graph_button w)) !! "loaded_graph" = None /\
  session (snd (load_graph_by_id backend (snd (clear_graph_button w)))) !! "loaded_graph" =
    Some (VDict [("name", VStr "My Graph")]).
Proof.
  intros w backend.
  destruct (clear_graph_keeps_id backend w) as (_ & _ & _ & Hgone & _ & _ & Hback).
  split; [exact Hgone|].
  apply (Hback (VInt 7) 200); reflexivity.
Defined.

(** ** The compared feature and the defaults of the sweep *)

(** X20.  Which selected features reach the request for the standard
    deviations.  For the ten comparable names the value is found and the
    request goes out; for "Productivity", which has no entry among the
    feature values, and for a name outside [FEATURE_MAPPING] a [KeyError]
    leaves the script before anything is sent. *)
Theorem current_compared_lookup backend c w :
  (In (compare_feature c) comparable_features ->
   sent (snd (current_compared backend c w)) = (sent w ++ [stds_request])%list) /\
  (compare_feature c = "Productivity" \/
   ~ In (compare_feature c) (Dict.keys FEATURE_MAPPING) ->
   current_compared backend c w = (Raised (KeyError (compare_feature c)), w)).
Proof.
  split.
  - intros Hin. unfold current_compared.
    destruct c as [? ? ? ? ? ? ? ? ? ? ? ? ? ? ? cf ? ? ? ?].
    cbn [compare_feature] in *.
    vm_compute in Hin.
    repeat (destruct Hin as [<- | Hin];
            [ cbn [Dict.get FEATURE_MAPPING String.eqb Ascii.eqb Bool.eqb];
              unfold mbind, page_bind, lift, requests_get, requests_send;
              cbn [subscript Dict.get feature_values];
              fold stds_request;
              destruct (backend stds_request) as [msg | status body]; [reflexivity|];
              cbn [session sent shown cache_clears];
              destruct (first_item body) as [stds|]; [|reflexivity];
              match goal with
              | |- context [subscript stds ?k] => destruct (subscript stds k)
              end; reflexivity
            |]).
    destruct Hin.
  - intros [Hprod | Hout]; unfold current_compared.
    + rewrite Hprod. reflexivity.
    + rewrite (dict_get_absent _ _ Hout). reflexivity.
Qed.

Lemma current_compared_lookup_witness :
  current_compared answering_backend
    (Controls 22000000 41000.0 33.0 8.0 0.064 0.052 0.0032 0.0019 21.0 2.1 7.9
       1 0 0 0 "Productivity" 0 10 20 EmptyString) fresh_world =
    (Raised (KeyError "Productivity"), fresh_world).
Proof.
  apply (proj2 (current_compared_lookup answering_backend
                  (Controls 22000000 41000.0 33.0 8.0 0.064 0.052 0.0032 0.0019 21.0 2.1 7.9
                     1 0 0 0 "Productivity" 0 10 20 EmptyString) fresh_world)).
  left. reflexivity.
Defined.

(** X21.  The x-axis of a saved graph is the feature preselected when the graph
    is loaded.  If the backend hands back the graph under the keys it was
    posted with, the "Feature" select box starts at the position of the
    feature the graph was saved for, provided the list holds that feature;
    with no loaded graph it starts at position 0. *)
Theorem saved_axis_is_preselected user_id c (available : list value) i :
  In (compare_feature c) (Dict.keys FEATURE_MAPPING) ->
  list_index (compare_feature c) available = Some i ->
  default_compare_index (request_json (save_request user_id c)) (VList available) = Ok i /\
  default_compare_index VNone (VList available) = Ok 0%nat.
Proof.
  intros Hin Hindex. split; [|reflexivity].
  destruct c as [? ? ? ? ? ? ? ? ? ? ? ? ? ? ? cf ? ? ? ?].
  cbn [compare_feature] in *.
  unfold FEATURE_MAPPING in Hin. cbn [Dict.keys map fst In] in Hin.
  repeat (destruct Hin as [<- | Hin];
          [ unfold default_compare_index, request_json, save_request;
            cbn -[list_index]; rewrite Hindex; reflexivity |]).
  destruct Hin.
Qed.

Lemma saved_axis_is_preselected_witness :
  default_compare_index
    (request_json (save_request (VInt 1)
                     (Controls 22000000 41000.0 33.0 8.0 0.064 0.052 0.0032 0.0019 21.0
                        2.1 7.9 1 0 0 0 "GDP per capita" 0 10 20 "My Graph")))
    (VList [VStr "Population"; VStr "GDP per capita"; VStr "Health"]) = Ok 1%nat.
Proof.
  apply (saved_axis_is_preselected (VInt 1)
           (Controls 22000000 41000.0 33.0 8.0 0.064 0.052 0.0032 0.0019 21.0
              2.1 7.9 1 0 0 0 "GDP per capita" 0 10 20 "My Graph")
           [VStr "Population"; VStr "GDP per capita"; VStr "Health"] 1%nat).
  - unfold FEATURE_MAPPING. simpl. tauto.
  - reflexivity.
Defined.

(** X22.  The range and the step count of a saved graph come back when it is
    loaded, under the keys they were posted with.  Without a loaded graph
    the sweep starts at 0, ends three standard deviations above the current
    value and has 20 steps.  The end of that default range is computed in
    either case: a standard deviation that cannot be multiplied or added
    raises its exception even when the loaded graph brings its own
    maximum. *)
Theorem sweep_defaults_round_trip f user_id c current std :
  (forall three_sigma x,
      (spread ← times_three std; py_add current spread) = Ok three_sigma ->
      py_float f three_sigma = Ok x ->
      sweep_defaults f (request_json (save_request user_id c)) current std =
        Ok (x_min c, x_max c, steps c) /\
      sweep_defaults f VNone current std = Ok (inject_Z 0, x, 20)) /\
  (forall e (loaded_graph : list (string * value)),
      (spread ← times_three std; py_add current spread) = Raise e ->
      sweep_defaults f (VDict loaded_graph) current std = Raise e).
Proof.
  split.
  - intros three_sigma x Hsum Hx. unfold sweep_defaults.
    destruct (times_three std) as [spread|]; [|discriminate Hsum].
    cbn [mbind result_bind] in Hsum.
    split.
    + destruct c. unfold request_json, save_request.
      cbn -[py_add]. rewrite Hsum. reflexivity.
    + cbn -[py_add py_float]. rewrite Hsum. cbn -[py_float]. rewrite Hx. reflexivity.
  - intros e loaded_graph Hsum. unfold sweep_defaults.
    destruct (truthy (VDict loaded_graph)); cbn [dot_get mbind result_bind];
      (destruct (times_three std) as [spread|]; cbn [mbind result_bind] in Hsum |- *;
       [rewrite Hsum; reflexivity | congruence]).
Qed.

Lemma sweep_defaults_round_trip_witness :
  sweep_defaults (fun _ => None)
    (request_json (save_request (VInt 1) (sweep_controls 5 50 30 "My Graph")))
    (VInt 22000000) (VFloat 1000.0) = Ok (5%Q, 50%Q, 30) /\
  sweep_defaults (fun _ => None) (VDict [("x_max", VInt 50)]) (VInt 22000000) VNone =
    Raise TypeError.
Proof.
  destruct (sweep_defaults_round_trip (fun _ => None) (VInt 1)
              (sweep_controls 5 50 30 "My Graph") (VInt 22000000) (VFloat 1000.0))
    as [Hback _].
  destruct (sweep_defaults_round_trip (fun _ => None) (VInt 1)
              (sweep_controls 5 50 30 "My Graph") (VInt 22000000) VNone)
    as [_ Heager].
  split.
  - apply (Hback _ _ eq_refl eq_refl).
  - apply Heager. reflexivity.
Defined.

(** ** What is kept between runs *)

(** X23.  The feature values of a saved graph are posted at the top level of the
    request, while the defaults of the controls are read from the entry
    "features" of the loaded graph: a graph handed back under the keys it
    was posted with is passed over, and every feature default is resolved
    as if no graph were loaded. *)
Theorem posted_features_not_restored f user_id c selected_preset key fallback as_int :
  contains "features" (request_json (save_request user_id c)) = Ok false /\
  get_default_value f (request_json (save_request user_id c)) selected_preset
    key fallback as_int =
  get_default_value f VNone selected_preset key fallback as_int.
Proof.
  destruct c. split; reflexivity.
Qed.

(** X24.  The initialisation keeps what the session holds: an entry that is
    there is not overwritten, so the chart of the last sweep survives the
    rerun; the two entries it needs are there afterwards, and a second
    initialisation changes nothing. *)
Theorem init_session_keeps_entries w :
  let w1 := snd (init_session w) in
  (forall k v, session w !! k = Some v -> session w1 !! k = Some v) /\
  is_Some (session w1 !! "graph_data") /\
  is_Some (session w1 !! "available_features") /\
  init_session w1 = (Returned tt, w1).
Proof.
  intros w1.
  assert (Hkeep : forall k v, session w !! k = Some v -> session w1 !! k = Some v).
  { intros k v Hk. subst w1. cbn [init_session snd session].
    repeat case_match; simplify_map_eq; done. }
  assert (Hgraph : is_Some (session w1 !! "graph_data")).
  { subst w1. cbn [init_session snd session].
    repeat case_match; simplify_map_eq; eauto. }
  assert (Hfeatures : is_Some (session w1 !! "available_features")).
  { subst w1. cbn [init_session snd session].
    repeat case_match; simplify_map_eq; eauto. }
  split; [exact Hkeep|]. split; [exact Hgraph|]. split; [exact Hfeatures|].
  destruct Hgraph as [g Hg], Hfeatures as [a Ha].
  unfold init_session at 1. rewrite Hg, Ha. by destruct w1.
Qed.

Lemma init_session_keeps_entries_witness :
  let w := World (<["graph_data" := VDict [("x_values", VList [VInt 1])]]> ∅) [] [] 0 in
  session (snd (init_session w)) !! "graph_data" =
    Some (VDict [("x_values", VList [VInt 1])]).
Proof.
  intros w.
  apply (proj1 (init_session_keeps_entries w)). reflexivity.
Defined.

(** X25.  The user id is checked after the graph named by [loaded_graph_id] is
    fetched: for a session that is authenticated but has no user id, the
    request for the graph goes out and its answer is stored before the run
    stops with the error about the user id. *)
Theorem user_id_checked_after_fetch backend home_pressed w graph_id status body :
  truthy (default (VBool false) (session w !! "authenticated")) = true ->
  truthy (default VNone (session w !! "UserID")) = false ->
  session w !! "loaded_graph_id" = Some graph_id ->
  truthy graph_id = true ->
  backend (graph_request graph_id) = Reply status body ->
  let r := page_top backend home_pressed w in
  fst r = Stopped /\
  sent (snd r) = (sent w ++ [graph_request graph_id])%list /\
  session (snd r) !! "loaded_graph" = Some body.
Proof.
  intros Hauth Huser Hid Htruthy Hreply r. subst r.
  rewrite <- (init_session_keeps "authenticated" w) in Hauth by done.
  rewrite <- (init_session_keeps "UserID" w) in Huser by done.
  rewrite <- (init_session_keeps "loaded_graph_id" w) in Hid by done.
  unfold page_top, mbind, page_bind.
  change (init_session w) with (Returned tt, snd (init_session w)).
  cbv beta iota.
  set (w0 := snd (init_session w)) in *.
  assert (Hsent : sent w0 = sent w) by reflexivity.
  unfold require_authenticated, mbind, page_bind, session_get_or.
  rewrite Hauth. cbn [mret page_ret].
  unfold load_graph_by_id, mbind, page_bind, session_get, requests_get, requests_send,
    session_set, st_write, st_show, mret, page_ret.
  rewrite Hid. change (default VNone (Some graph_id)) with graph_id.
  rewrite Htruthy. fold (graph_request graph_id). rewrite Hreply.
  cbn [session sent shown cache_clears].
  unfold require_user_id, mbind, page_bind, session_get.
  cbn [session sent shown cache_clears].
  rewrite lookup_insert_ne by done. rewrite Huser.
  destruct home_pressed; cbn [st_error st_show st_switch_page st_stop mret page_ret
                                fst snd session sent shown cache_clears];
    rewrite Hsent, lookup_insert_eq; done.
Qed.

Lemma user_id_checked_after_fetch_witness :
  let w := World (<["authenticated" := VBool true]> (<["loaded_graph_id" := VInt 7]> ∅))
             [] [] 0 in
  let backend := fun _ => Reply 200 (VDict [("name", VStr "My Graph")]) in
  fst (page_top backend false w) = Stopped /\
  sent (snd (page_top backend false w)) = [graph_request (VInt 7)].
Proof.
  intros w backend.
  assert (Hauth : truthy (default (VBool false) (session w !! "authenticated")) = true)
    by (vm_compute; reflexivity).
  assert (Huser : truthy (default VNone (session w !! "UserID")) = false)
    by (vm_compute; reflexivity).
  assert (Hid : session w !! "loaded_graph_id" = Some (VInt 7))
    by (vm_compute; reflexivity).
  destruct (user_id_checked_after_fetch backend false w (VInt 7) 200
              (VDict [("name", VStr "My Graph")]) Hauth Huser Hid eq_refl eq_refl)
    as (H1 & H2 & _).
  split; assumption.
Defined.
